(** * Exchange discovery and transaction history pipeline

    A shallow embedding of the core of [data_collection_tools.py]:
    [_format_exchange_data], [scrape_exchanges],
    [filter_top_exchange_addresses] and [get_txn_history], together with
    the Python builtins they rely on ([str.strip], [str.replace],
    [float], [pandas.concat]). *)

From Stdlib Require Import ZArith List String Ascii Bool Lia.
From Stdlib Require Import Floats.SpecFloat.
From stdpp Require Import base option gmap strings.

Import ListNotations.
Local Open Scope string_scope.
Local Open Scope Z_scope.

(** ** Python strings

    Strings are sequences of ASCII characters; what Python does with the
    characters above 127 (other digits, other blanks) is not modelled. *)

Module PyStr.

(** [c in chars] for a one-character [c]. *)
Fixpoint mem (c : ascii) (chars : string) : bool :=
  match chars with
  | EmptyString => false
  | String d rest => if Ascii.eqb c d then true else mem c rest
  end.

(** [s.lstrip(chars)]: drop the longest prefix made of characters of
    [chars]. *)
Fixpoint lstrip (chars s : string) : string :=
  match s with
  | EmptyString => EmptyString
  | String c rest => if mem c chars then lstrip chars rest else s
  end.

(** [s.rstrip(chars)]: drop the longest suffix made of characters of
    [chars]. *)
Fixpoint rstrip (chars s : string) : string :=
  match s with
  | EmptyString => EmptyString
  | String c rest =>
      match rstrip chars rest with
      | EmptyString => if mem c chars then EmptyString else String c EmptyString
      | kept => String c kept
      end
  end.

(** [s.strip(chars)]: [chars] is a set of characters, not a literal. *)
Definition strip (chars s : string) : string :=
  rstrip chars (lstrip chars s).

(** [s.replace(old, new)] for a one-character [old]. *)
Fixpoint replace (old : ascii) (new s : string) : string :=
  match s with
  | EmptyString => EmptyString
  | String c rest =>
      if Ascii.eqb c old then (new ++ replace old new rest)%string
      else String c (replace old new rest)
  end.

(** The characters the C-level scanner of [float] skips around a
    literal: tab, line feed, vertical tab, form feed, carriage return and
    space. *)
Definition is_space (c : ascii) : bool :=
  let n := N_of_ascii c in
  (((9 <=? n) && (n <=? 13)) || (n =? 32))%N.

(** [c.isspace()] for an ASCII character: the six above and the four
    separators 28 to 31.  This is the set [s.strip()] removes. *)
Definition isspace (c : ascii) : bool :=
  let n := N_of_ascii c in
  (((9 <=? n) && (n <=? 13)) || ((28 <=? n) && (n <=? 32)))%N.

Definition is_digit (c : ascii) : bool :=
  let n := N_of_ascii c in ((48 <=? n) && (n <=? 57))%N.

Definition digit_val (c : ascii) : Z := Z.of_N (N_of_ascii c) - 48.

(** Upper-case ASCII letters to lower case. *)
Definition lower (c : ascii) : ascii :=
  let n := N_of_ascii c in
  if ((65 <=? n) && (n <=? 90))%N then ascii_of_N (n + 32) else c.

Fixpoint lstrip_space (s : string) : string :=
  match s with
  | EmptyString => EmptyString
  | String c rest => if is_space c then lstrip_space rest else s
  end.

Fixpoint rstrip_space (s : string) : string :=
  match s with
  | EmptyString => EmptyString
  | String c rest =>
      match rstrip_space rest with
      | EmptyString => if is_space c then EmptyString else String c EmptyString
      | kept => String c kept
      end
  end.

(** [s.strip()] with no argument. *)
Fixpoint lstrip_blank (s : string) : string :=
  match s with
  | EmptyString => EmptyString
  | String c rest => if isspace c then lstrip_blank rest else s
  end.

Fixpoint rstrip_blank (s : string) : string :=
  match s with
  | EmptyString => EmptyString
  | String c rest =>
      match rstrip_blank rest with
      | EmptyString => if isspace c then EmptyString else String c EmptyString
      | kept => String c kept
      end
  end.

Definition strip_blank (s : string) : string := rstrip_blank (lstrip_blank s).

(** Longest prefix of decimal digits, and what follows it. *)
Fixpoint span_digits (s : string) : string * string :=
  match s with
  | EmptyString => (EmptyString, EmptyString)
  | String c rest =>
      if is_digit c
      then let '(ds, tl) := span_digits rest in (String c ds, tl)
      else (EmptyString, s)
  end.

(** Value of a digit string read in base ten, most significant first. *)
Fixpoint digits_value_from (acc : Z) (s : string) : Z :=
  match s with
  | EmptyString => acc
  | String c rest => digits_value_from (10 * acc + digit_val c) rest
  end.

Definition digits_value (s : string) : Z := digits_value_from 0 s.

End PyStr.

(** ** Python floats

    A Python [float] is an IEEE 754 binary64 number; [float(str)] parses a
    decimal literal and rounds it to the nearest binary64 value, ties to
    even.  The numbers are [spec_float]s at precision 53. *)

Module PyFloat.
Import PyStr.

Definition prec : Z := 53.
Definition emax : Z := 1024.

Definition float : Type := spec_float.

(** Nearest binary64 to the integer [z]. *)
Definition of_Z (z : Z) : float := binary_normalize prec emax z 0 false.

(** Nearest binary64 to [(-1)^neg * m * 10^e10]. *)
Definition of_decimal (neg : bool) (m e10 : Z) : float :=
  match m with
  | Zpos p =>
      if 0 <=? e10
      then binary_round prec emax neg (p * Z.to_pos (10 ^ e10)) 0
      else SFdiv prec emax (S754_finite neg p 0)
                 (S754_finite false (Z.to_pos (10 ^ (- e10))) 0)
  | _ => S754_zero neg
  end.

(** [x > y] on floats; false as soon as one side is NaN. *)
Definition gt (x y : float) : bool := SFltb y x.

(** Underscores of a numeric literal: each one must stand between two
    digits.  Returns the literal without them. *)
Fixpoint drop_underscores (prev : ascii) (s : string) : option string :=
  match s with
  | EmptyString => if Ascii.eqb prev "_" then None else Some EmptyString
  | String c rest =>
      if Ascii.eqb c "_"
      then if is_digit prev then drop_underscores c rest else None
      else if Ascii.eqb prev "_" && negb (is_digit c) then None
           else option_map (String c) (drop_underscores c rest)
  end.

(** Optional sign: [true] for a minus. *)
Definition split_sign (s : string) : bool * string :=
  match s with
  | String "-" rest => (true, rest)
  | String "+" rest => (false, rest)
  | _ => (false, s)
  end.

Fixpoint lower_string (s : string) : string :=
  match s with
  | EmptyString => EmptyString
  | String c rest => String (lower c) (lower_string rest)
  end.

(** [inf], [infinity] and [nan], in any letter case. *)
Definition parse_inf_or_nan (neg : bool) (body : string) : option float :=
  let l := lower_string body in
  if String.eqb l "inf" || String.eqb l "infinity" then Some (S754_infinity neg)
  else if String.eqb l "nan" then Some S754_nan
  else None.

(** Exponent part [e[+-]digits]; when no digit follows, the [e] is not
    part of the number and is left in the remainder. *)
Definition parse_exponent (s : string) : Z * string :=
  match s with
  | String c rest =>
      if Ascii.eqb (lower c) "e" then
        let '(neg, r) := split_sign rest in
        let '(ds, tl) := span_digits r in
        match ds with
        | EmptyString => (0, s)
        | _ => ((if neg then - digits_value ds else digits_value ds), tl)
        end
      else (0, s)
  | EmptyString => (0, s)
  end.

(** Decimal literal: digits, an optional point and more digits, an
    optional exponent; at least one digit before the exponent and nothing
    after the literal. *)
Definition parse_decimal (neg : bool) (body : string) : option float :=
  let '(ip, r1) := span_digits body in
  let '(fp, r2) :=
    match r1 with
    | String "." r => span_digits r
    | _ => (EmptyString, r1)
    end in
  match (ip ++ fp)%string with
  | EmptyString => None
  | mant =>
      let '(ex, r3) := parse_exponent r2 in
      match r3 with
      | EmptyString =>
          Some (of_decimal neg (digits_value mant) (ex - Z.of_nat (String.length fp)))
      | _ => None
      end
  end.

(** [float(s)] for an ASCII string [s]; [None] is Python's [ValueError]. *)
Definition of_string (s : string) : option float :=
  match drop_underscores " " (rstrip_space (lstrip_space s)) with
  | None => None
  | Some lit =>
      let '(neg, body) := split_sign lit in
      match parse_decimal neg body with
      | Some x => Some x
      | None => parse_inf_or_nan neg body
      end
  end.

End PyFloat.

(** ** Exceptions and computations *)

(** What the modelled code can raise, named by cause. *)
Inductive exn : Type :=
| ShapeMismatch          (* DataFrame: four columns named, another width given *)
| MissingCell            (* a method called on a [None] cell *)
| NotNumeric             (* [float] on a string that is not a number *)
| NoObjectsToConcatenate (* [pd.concat] on an empty list *)
| NoTable                (* the page has no [table] element *)
| NotAFrame.             (* [pd.DataFrame] on a plain string *)

(** How a run ends.  [OutOfFuel] is not a Python outcome: it marks a run
    cut short by the step bound of the model. *)
Inductive outcome (A : Type) : Type :=
| Returned (a : A)
| Raised (e : exn)
| OutOfFuel.

Arguments Returned {A} a.
Arguments Raised {A} e.
Arguments OutOfFuel {A}.

(** A computation over a state [S]: the outside world and what was asked
    of it so far. *)
Definition io (S A : Type) : Type := S -> outcome A * S.

Definition ret {S A} (a : A) : io S A := fun s => (Returned a, s).

Definition raise {S A} (e : exn) : io S A := fun s => (Raised e, s).

Definition bind {S A B} (m : io S A) (k : A -> io S B) : io S B :=
  fun s =>
    match m s with
    | (Returned a, s') => k a s'
    | (Raised e, s') => (Raised e, s')
    | (OutOfFuel, s') => (OutOfFuel, s')
    end.

Notation "'let!' x ':=' m 'in' k" := (bind m (fun x => k))
  (at level 10, x name, m at level 200, k at level 200,
   format "'[v' 'let!'  x  ':='  m  'in' '/' k ']'").

(** Pure code that may raise. *)
Definition fallible (A : Type) : Type := exn + A.

Definition lift {S A} (r : fallible A) : io S A :=
  match r with
  | inl e => raise e
  | inr a => ret a
  end.

(** [f] on each element from left to right, stopping at the first
    exception: [Series.apply]. *)
Fixpoint apply {A B} (f : A -> fallible B) (xs : list A) : fallible (list B) :=
  match xs with
  | [] => inr []
  | x :: rest =>
      match f x with
      | inl e => inl e
      | inr y =>
          match apply f rest with
          | inl e => inl e
          | inr ys => inr (y :: ys)
          end
      end
  end.

(** [pd.concat(frames)]: the rows of the frames one after the other;
    raises on an empty list of frames. *)
Definition pd_concat {A} (frames : list (list A)) : fallible (list A) :=
  match frames with
  | [] => inl NoObjectsToConcatenate
  | _ => inr (List.concat frames)
  end.

(** ** Exchange Table Builder *)

Record exchange : Type := {
  address : string;
  name : string;
  balance : PyFloat.float;
  txn_count : PyFloat.float
}.

(** A scraped row: the texts of its cells. *)
Definition row : Type := list string.

(** Widest row of the data, 0 for no rows. *)
Definition width (data : list row) : nat :=
  fold_right (fun r w => Nat.max (List.length r) w) 0%nat data.

(** [pd.DataFrame(data, columns=[four names])] accepts no rows at all, or
    rows of which the widest has four cells; shorter rows are filled with
    [None], which is what [nth_error] returns past the end of a row. *)
Definition frame_ok (data : list row) : bool :=
  match data with
  | [] => true
  | _ => Nat.eqb (width data) 4
  end.

(** [lambda str: float(str.strip(" Ether").replace(",", ""))] on a cell. *)
Definition balance_of_cell (c : option string) : fallible PyFloat.float :=
  match c with
  | None => inl MissingCell
  | Some str =>
      match PyFloat.of_string (PyStr.replace "," "" (PyStr.strip " Ether" str)) with
      | Some x => inr x
      | None => inl NotNumeric
      end
  end.

(** [lambda str: float(str.replace(",", ""))] on a cell. *)
Definition txn_count_of_cell (c : option string) : fallible PyFloat.float :=
  match c with
  | None => inl MissingCell
  | Some str =>
      match PyFloat.of_string (PyStr.replace "," "" str) with
      | Some x => inr x
      | None => inl NotNumeric
      end
  end.

(** One record of the frame.  Both conversions passed, so the row has its
    four cells (see [row_matches_intro]) and the defaults are never read. *)
Definition make_exchange (r : row) (b t : PyFloat.float) : exchange :=
  {| address := nth 0 r ""; name := nth 1 r ""; balance := b; txn_count := t |}.

Fixpoint zip_exchanges (data : list row) (bs ts : list PyFloat.float) : list exchange :=
  match data, bs, ts with
  | r :: data', b :: bs', t :: ts' => make_exchange r b t :: zip_exchanges data' bs' ts'
  | _, _, _ => []
  end.

(** [_format_exchange_data(rows)]: the frame is built from [rows[1:]],
    then the balance column is converted, then the txn_count column. *)
Definition _format_exchange_data (rows : list row) : fallible (list exchange) :=
  let data := tl rows in
  if frame_ok data then
    match apply (fun r => balance_of_cell (nth_error r 2)) data with
    | inl e => inl e
    | inr balances =>
        match apply (fun r => txn_count_of_cell (nth_error r 3)) data with
        | inl e => inl e
        | inr counts => inr (zip_exchanges data balances counts)
        end
    end
  else inl ShapeMismatch.

(** ** Exchange Scraper *)

Section Scraper.

(** The listing site.  [get_listing w page ps] is what the GET for page
    [page] with page size [ps] gives in world [w]: [None] when the HTML
    has no table, else the texts of the [td] cells of each [tr] of the
    first table, before [strip()]. *)
Variable World : Type.
Variable get_listing : World -> Z -> Z -> option (list row) * World.

(** The world and the pages requested so far, oldest first. *)
Record scraper_state : Type := {
  listing_world : World;
  requested : list Z
}.

(** Line 125: [item.text.strip()] on every cell of every row. *)
Definition stripped (trs : list row) : list row := map (map PyStr.strip_blank) trs.

(** Lines 120 to 125: one GET, then the rows of the table. *)
Definition fetch_rows (page_number page_limit : Z) : io scraper_state (list row) :=
  fun s =>
    let '(page, w') := get_listing (listing_world s) page_number page_limit in
    let s' := {| listing_world := w'; requested := requested s ++ [page_number] |} in
    match page with
    | None => (Raised NoTable, s')
    | Some trs => (Returned (stripped trs), s')
    end.

(** The [while True] loop of lines 119 to 130, at most [fuel] rounds. *)
Fixpoint scrape_loop (fuel : nat) (page_limit page_number : Z)
         (exchanges : list (list exchange)) : io scraper_state (list (list exchange)) :=
  match fuel with
  | O => fun s => (OutOfFuel, s)
  | S fuel' =>
      let! rows := fetch_rows page_number page_limit in
      if (List.length rows <=? 2)%nat then ret exchanges
      else
        let! fragment := lift (_format_exchange_data rows) in
        scrape_loop fuel' page_limit (page_number + 1) (exchanges ++ [fragment])
  end.

(** [scrape_exchanges()].  The prints of lines 121 and 132 to 134 only
    show the table and are left out. *)
Definition scrape_exchanges (fuel : nat) : io scraper_state (list exchange) :=
  let page_number := 1 in
  let page_limit := 100 in
  let! exchanges := scrape_loop fuel page_limit page_number [] in
  lift (pd_concat exchanges).

End Scraper.

Arguments listing_world {World} s.
Arguments requested {World} s.
Arguments Build_scraper_state {World} listing_world requested.

(** ** Exchange Filter *)

(** [exhanges_df['balance'] > min_balance]: one boolean per row. *)
Definition balance_condition (exhanges_df : list exchange) (min_balance : PyFloat.float) : list bool :=
  map (fun r => PyFloat.gt (balance r) min_balance) exhanges_df.

Definition txn_condition (exhanges_df : list exchange) (min_txn_count : PyFloat.float) : list bool :=
  map (fun r => PyFloat.gt (txn_count r) min_txn_count) exhanges_df.

(** [a & b] on two boolean columns of one frame, position by position. *)
Fixpoint mask_and (a b : list bool) : list bool :=
  match a, b with
  | x :: a', y :: b' => (x && y) :: mask_and a' b'
  | _, _ => []
  end.

(** [df[mask]]: the rows whose mask is true, in the order of the frame. *)
Fixpoint select {A} (df : list A) (mask : list bool) : list A :=
  match df, mask with
  | r :: df', m :: mask' => if m then r :: select df' mask' else select df' mask'
  | _, _ => []
  end.

(** The rows kept by line 152, before the address column is taken. *)
Definition top_exchanges (exhanges_df : list exchange)
           (min_balance min_txn_count : PyFloat.float) : list exchange :=
  select exhanges_df
         (mask_and (balance_condition exhanges_df min_balance)
                   (txn_condition exhanges_df min_txn_count)).

Definition filter_top_exchange_addresses (exhanges_df : list exchange)
           (min_balance min_txn_count : PyFloat.float) : list string :=
  map address (top_exchanges exhanges_df min_balance min_txn_count).

(** What Python may hand to the filter: a frame, with its named columns,
    or one column of addresses, which is what the filter returns. *)
Inductive pandas_object : Type :=
| DataFrame (rows : list exchange)
| Series (values : list string).

(** Indexing by a label that is not there. *)
Inductive key_error : Type :=
| KeyError (key : string).

(** A call of [filter_top_exchange_addresses] on either kind of object.
    Line 150 starts by asking for the column 'balance'; a column of
    addresses is indexed by row numbers and has no such label. *)
Definition filter_top_exchange_addresses_on (exhanges_df : pandas_object)
           (min_balance min_txn_count : PyFloat.float) : key_error + pandas_object :=
  match exhanges_df with
  | DataFrame df =>
      inr (Series (filter_top_exchange_addresses df min_balance min_txn_count))
  | Series _ => inl (KeyError "balance")
  end.

Definition default_min_balance : PyFloat.float := PyFloat.of_Z 2000.
Definition default_min_txn_count : PyFloat.float := PyFloat.of_Z 400000.

(** ** Transaction History Fetcher *)

Section Fetcher.

(** The explorer API and the operator's terminal.  A transaction is
    kept as the API gives it. *)
Variable World : Type.
Variable Txn : Type.

(** The query of line 176. *)
Record txlist_request : Type := {
  req_address : string;
  req_page : Z;
  req_offset : Z;
  req_apikey : string
}.

Definition txlist_query (address api_key : string) (offset page : Z) : txlist_request :=
  {| req_address := address; req_page := page;
     req_offset := offset; req_apikey := api_key |}.

(** [response.json()]: on success [result] is a list of transactions,
    on failure a string that tells why. *)
Record api_response : Type := {
  status : string;
  message : string;
  result : list Txn + string
}.

Variable get_txlist : World -> txlist_request -> api_response * World.
Variable getpass : World -> string -> string * World.

(** The world and the requests issued so far, oldest first. *)
Record fetcher_state : Type := {
  api_world : World;
  issued : list txlist_request
}.

Definition requests_get (rq : txlist_request) : io fetcher_state api_response :=
  fun s =>
    let '(response, w') := get_txlist (api_world s) rq in
    (Returned response, {| api_world := w'; issued := issued s ++ [rq] |}).

Definition prompt (text : string) : io fetcher_state string :=
  fun s =>
    let '(typed, w') := getpass (api_world s) text in
    (Returned typed, {| api_world := w'; issued := issued s |}).

(** [pd.DataFrame(response.json()['result'])]: one row per transaction. *)
Definition frame_of_result (r : list Txn + string) : fallible (list Txn) :=
  match r with
  | inl records => inr records
  | inr _ => inl NotAFrame
  end.

(** The [while] loop of lines 175 to 183, at most [fuel] requests. *)
Fixpoint page_loop (fuel : nat) (address api_key : string) (offset page : Z)
         (txns : list (list Txn)) : io fetcher_state (list (list Txn)) :=
  if page * offset <=? 10000 then
    match fuel with
    | O => fun s => (OutOfFuel, s)
    | S fuel' =>
        let! response := requests_get (txlist_query address api_key offset page) in
        if negb (String.eqb (status response) "1") then ret txns
        else
          let! frame := lift (frame_of_result (result response)) in
          page_loop fuel' address api_key offset (page + 1) (txns ++ [frame])
    end
  else ret txns.

(** The [for] loop of lines 172 to 184. *)
Fixpoint for_each_address (fuel : nat) (api_key : string) (offset : Z)
         (addresses : list string) (txns_by_address : gmap string (list Txn))
  : io fetcher_state (gmap string (list Txn)) :=
  match addresses with
  | [] => ret txns_by_address
  | address :: rest =>
      let page := 1 in
      let! txns := page_loop fuel address api_key offset page [] in
      let! table := lift (pd_concat txns) in
      for_each_address fuel api_key offset rest (<[address := table]> txns_by_address)
  end.

(** [get_txn_history(addresses, api_key, offset)]; the dictionary is a
    finite map from address to table.  The prints are left out. *)
Definition get_txn_history (fuel : nat) (addresses : list string)
           (api_key : option string) (offset : Z)
  : io fetcher_state (gmap string (list Txn)) :=
  let! api_key :=
    match api_key with
    | None => prompt "Enter EtherScan.io API Key: "
    | Some key => ret key
    end in
  for_each_address fuel api_key offset addresses ∅.

End Fetcher.

Arguments status {Txn} a.
Arguments message {Txn} a.
Arguments result {Txn} a.
Arguments api_world {World} f.
Arguments issued {World} f.
Arguments Build_fetcher_state {World} api_world issued.
Arguments Build_api_response {Txn} status message result.

(** ** Chart scraper *)

(** [s[start:stop]] on a string: a negative index counts from the end,
    and both ends are clamped to the string, so a slice never raises. *)
Definition slice_index (len i : Z) : nat :=
  Z.to_nat (if i <? 0 then Z.max (i + len) 0 else Z.min i len).

Definition slice (s : string) (start stop : Z) : string :=
  let len := Z.of_nat (String.length s) in
  let a := slice_index len start in
  let b := slice_index len stop in
  substring a (b - a) s.

Definition nul : ascii := "000"%char.

(** A string read back from a NumPy array of strings: the cells have a
    fixed width and are padded with NUL, so the NULs a string ends with are
    lost. *)
Definition np_str (s : string) : string := PyStr.rstrip (String nul EmptyString) s.

(** [np.array([a, b])] for two strings, as the pair of its cells. *)
Definition np_array2 (a b : string) : string * string := (np_str a, np_str b).

(** [_parse_bitinfo_graph_record(record)]. *)
Definition _parse_bitinfo_graph_record (record : string) : string * string :=
  let date := slice record 11 21 in
  let value := slice record 24 (-1) in
  np_array2 date value.

Definition dquote : ascii := "034"%char.

(** The two literal parts of the pattern of line 84: what stands before
    the date and what stands between the date and the value. *)
Definition record_open : string := "[new Date(" ++ String dquote "".
Definition record_mid : string := String dquote "),".

(** [\w] on an ASCII character. *)
Definition is_word (c : ascii) : bool :=
  let n := N_of_ascii c in
  (PyStr.is_digit c || ((65 <=? n) && (n <=? 90)) || ((97 <=? n) && (n <=? 122))
   || (n =? 95))%N.

(** Longest prefix of characters that satisfy [p], and what follows. *)
Fixpoint span (p : ascii -> bool) (s : string) : string * string :=
  match s with
  | EmptyString => (EmptyString, EmptyString)
  | String c rest =>
      if p c then let '(run, tl) := span p rest in (String c run, tl)
      else (EmptyString, s)
  end.

(** A literal at the head of [s]: what follows it. *)
Fixpoint match_literal (lit s : string) : option string :=
  match lit, s with
  | EmptyString, _ => Some s
  | String a lit', String c rest => if Ascii.eqb a c then match_literal lit' rest else None
  | String _ _, EmptyString => None
  end.

(** [\d{n}] at the head of [s]: the digits and what follows them. *)
Fixpoint match_digits (n : nat) (s : string) : option (string * string) :=
  match n, s with
  | O, _ => Some (EmptyString, s)
  | S n', String c rest =>
      if PyStr.is_digit c then
        match match_digits n' rest with
        | Some (ds, tl) => Some (String c ds, tl)
        | None => None
        end
      else None
  | S _, EmptyString => None
  end.

(** [\d{4}/\d{2}/\d{2}] at the head of [s]. *)
Definition match_date (s : string) : option (string * string) :=
  match match_digits 4 s with
  | Some (y, String "/" s1) =>
      match match_digits 2 s1 with
      | Some (m, String "/" s2) =>
          match match_digits 2 s2 with
          | Some (d, tl) => Some ((y ++ "/" ++ m ++ "/" ++ d)%string, tl)
          | None => None
          end
      | _ => None
      end
  | _ => None
  end.

(** The pattern of line 84 at the head of [s]: the text it matches.  The
    greedy [\d*\w*] takes the whole run of word characters; giving some
    back cannot help, since the bracket that must follow is not a word
    character. *)
Definition match_record (s : string) : option string :=
  match match_literal record_open s with
  | Some s1 =>
      match match_date s1 with
      | Some (date, s2) =>
          match match_literal record_mid s2 with
          | Some s3 =>
              let '(value, s4) := span is_word s3 in
              match s4 with
              | String "]" _ =>
                  Some (record_open ++ date ++ record_mid ++ value ++ "]")%string
              | _ => None
              end
          | None => None
          end
      | None => None
      end
  | None => None
  end.

(** [pattern.findall(text)]: the matches from left to right, without
    overlap; [skip] characters of the last match are still to be passed. *)
Fixpoint findall_from (skip : nat) (s : string) : list string :=
  match s with
  | EmptyString => []
  | String c rest =>
      match skip with
      | S k => findall_from k rest
      | O =>
          match match_record s with
          | Some m => m :: findall_from (String.length m - 1) rest
          | None => findall_from 0 rest
          end
      end
  end.

Definition findall (script_text : string) : list string := findall_from 0 script_text.

(** Lines 84 to 88 of [download_bitinfo_graph_data]: one row of date and
    value per record found in the script, in the order found. *)
Definition bitinfo_transactions (script_text : string) : list (string * string) :=
  let records := findall script_text in
  fold_left (fun transactions record =>
               (transactions ++ [_parse_bitinfo_graph_record record])%list)
            records [].

(** ** Vocabulary of the statements *)

(** Every character of [s] satisfies [p]. *)
Fixpoint all_chars (p : ascii -> bool) (s : string) : bool :=
  match s with
  | EmptyString => true
  | String c rest => p c && all_chars p rest
  end.

(** A digit or a grouping comma. *)
Definition digit_or_comma (c : ascii) : bool :=
  PyStr.is_digit c || Ascii.eqb c ",".

(** A comma-grouped digit string: digits and commas only, with at least
    one digit.  Commas may stand anywhere, which covers the usual groups of
    three. *)
Definition grouped_digits (n : string) : Prop :=
  all_chars digit_or_comma n = true /\ PyStr.replace "," "" n <> "".

(** The float [x] is exactly the integer [z]. *)
Definition represents (x : PyFloat.float) (z : Z) : Prop :=
  match x with
  | S754_zero _ => z = 0
  | S754_finite s m e => e <= 0 /\ cond_Zopp s (Zpos m) = z * 2 ^ (- e)
  | _ => False
  end.

(** The page numbers [p], [p + 1], ... , [n] of them. *)
Fixpoint pages_from (p : Z) (n : nat) : list Z :=
  match n with
  | O => []
  | S n' => p :: pages_from (p + 1) n'
  end.

(** Row [r] of the page became record [e] of the table: four cells, the
    first two taken as they are, the last two normalized. *)
Definition row_matches (r : row) (e : exchange) : Prop :=
  exists b t,
    r = [address e; name e; b; t]
    /\ balance_of_cell (Some b) = inr (balance e)
    /\ txn_count_of_cell (Some t) = inr (txn_count e).

(** Both conditions of the filter hold of record [r], strictly. *)
Definition exceeds (min_balance min_txn_count : PyFloat.float) (r : exchange) : bool :=
  PyFloat.gt (balance r) min_balance && PyFloat.gt (txn_count r) min_txn_count.

(** The two records of the filter example, and a page of three rows. *)
Definition record_A : exchange :=
  {| address := "A"; name := ""; balance := PyFloat.of_Z 2500; txn_count := PyFloat.of_Z 500000 |}.

Definition record_B : exchange :=
  {| address := "B"; name := ""; balance := PyFloat.of_Z 1000; txn_count := PyFloat.of_Z 500000 |}.

Definition three_rows : list row :=
  [ [];
    ["0x3f5c"; "Exchange One"; "2,500 Ether"; "500,000"];
    ["0x9a01"; "Exchange Two"; "1,000 Ether"; "500,000"] ].

Definition three_rows_table : list exchange :=
  [ {| address := "0x3f5c"; name := "Exchange One";
       balance := PyFloat.of_Z 2500; txn_count := PyFloat.of_Z 500000 |};
    {| address := "0x9a01"; name := "Exchange Two";
       balance := PyFloat.of_Z 1000; txn_count := PyFloat.of_Z 500000 |} ].

(** The records of page [trs] are [fragment], row by row in order. *)
Definition page_records (trs : list row) (fragment : list exchange) : Prop :=
  Forall2 row_matches (tl (stripped trs)) fragment.

Section ScraperRuns.

Variable World : Type.
Variable get_listing : World -> Z -> Z -> option (list row) * World.

(** [serves w p pages w']: asked in turn for pages [p], [p + 1], ... of
    100 rows, the site in world [w] answers with the tables [pages] and is
    left in world [w']. *)
Inductive serves : World -> Z -> list (list row) -> World -> Prop :=
| serves_none (w : World) (p : Z) : serves w p [] w
| serves_page (w : World) (p : Z) (trs : list row) (w1 : World)
              (pages : list (list row)) (w2 : World) :
    get_listing w p 100 = (Some trs, w1) ->
    serves w1 (p + 1) pages w2 ->
    serves w p (trs :: pages) w2.

End ScraperRuns.

(** A stub site: pages 1 to 3 hold a header row and 100 data rows, every
    later page a header row and a footer row. *)
Definition stub_row (page : Z) : row :=
  [ if page =? 1 then "0x01" else if page =? 2 then "0x02" else "0x03";
    "Exchange"; " 2,500 Ether"; "500,000 " ].

Definition stub_record (page : Z) : exchange :=
  {| address := if page =? 1 then "0x01" else if page =? 2 then "0x02" else "0x03";
     name := "Exchange";
     balance := PyFloat.of_Z 2500; txn_count := PyFloat.of_Z 500000 |}.

Definition stub_listing (w : unit) (page page_limit : Z) : option (list row) * unit :=
  (Some (if page <=? 3 then [] :: repeat (stub_row page) 100
         else [[]; ["No matching entries"]]), w).

(** A site whose first page has no data row. *)
Definition empty_listing (w : unit) (page page_limit : Z) : option (list row) * unit :=
  (Some [[]; ["No matching entries"]], w).

(** Two stub endpoints: one that fails every call, one that answers every
    call with a page of one transaction; and a terminal nobody types at. *)
Definition failing_api (w : unit) (rq : txlist_request) : api_response string * unit :=
  (Build_api_response "0" "NOTOK" (inr "Max rate limit reached"), w).

Definition working_api (w : unit) (rq : txlist_request) : api_response string * unit :=
  (Build_api_response "1" "OK" (inl ["0xfeed"]), w).

Definition silent_terminal (w : unit) (text : string) : string * unit := ("", w).

(** The text of one chart record, as the pattern of line 84 expects it. *)
Definition render_record (date value : string) : string :=
  (record_open ++ date ++ record_mid ++ value ++ "]")%string.

(** Four digits, a slash, two digits, a slash, two digits. *)
Definition date_shaped (d : string) : bool :=
  match match_date d with
  | Some (_, EmptyString) => true
  | _ => false
  end.

(** The last character of [s] is [c]. *)
Fixpoint ends_with (c : ascii) (s : string) : bool :=
  match s with
  | EmptyString => false
  | String d EmptyString => Ascii.eqb c d
  | String _ rest => ends_with c rest
  end.

Definition starts_with (c : ascii) (s : string) : bool :=
  match s with
  | String d _ => Ascii.eqb c d
  | EmptyString => false
  end.

(** Text in which no opening bracket is followed by the letter n, so that
    no record can begin in it. *)
Fixpoint quiet (s : string) : bool :=
  match s with
  | EmptyString => true
  | String c rest => negb (Ascii.eqb c "[" && starts_with "n" rest) && quiet rest
  end.

(** A chart script: records, each followed by some text. *)
Fixpoint chart_script (recs : list (string * string * string)) : string :=
  match recs with
  | [] => EmptyString
  | (date, value, after) :: rest =>
      (render_record date value ++ after ++ chart_script rest)%string
  end.

(** A site every page of which holds a header row and one data row too
    many to stop at. *)
Definition endless_listing (w : unit) (page page_limit : Z) : option (list row) * unit :=
  (Some ([] :: repeat (stub_row page) 2), w).

(** A site whose second page has a row of three cells. *)
Definition broken_listing (w : unit) (page page_limit : Z) : option (list row) * unit :=
  (Some (if page =? 1 then [] :: repeat (stub_row page) 2
         else [[]; ["0x04"; "Exchange"; "1 Ether"]; stub_row page]), w).

Section FetcherRuns.

Variable World : Type.
Variable Txn : Type.
Variable get_txlist : World -> txlist_request -> api_response Txn * World.

(** [answers w address api_key offset p frames w']: asked in turn for pages
    [p], [p + 1], ... of one address, the endpoint in world [w] reports
    success each time, with the transactions [frames], and is left in
    world [w']. *)
Inductive answers (address api_key : string) (offset : Z)
  : World -> Z -> list (list Txn) -> World -> Prop :=
| answers_none (w : World) (p : Z) : answers address api_key offset w p [] w
| answers_page (w : World) (p : Z) (message : string) (records : list Txn) (w1 : World)
               (frames : list (list Txn)) (w2 : World) :
    get_txlist w (txlist_query address api_key offset p)
    = (Build_api_response "1" message (inl records), w1) ->
    answers address api_key offset w1 (p + 1) frames w2 ->
    answers address api_key offset w p (records :: frames) w2.

End FetcherRuns.

(** An endpoint that answers its first call with one transaction and
    fails every later call; the world counts the calls. *)
Definition drying_api (w : nat) (rq : txlist_request) : api_response string * nat :=
  (match w with
   | O => Build_api_response "1" "OK" (inl ["0xfeed"])
   | S _ => Build_api_response "0" "No transactions found" (inr "")
   end, S w).

(** * Properties *)

(** ** Strings *)

Section StringFacts.

Variable chars : string.

Let inside (c : ascii) : bool := PyStr.mem c chars.
Let outside (c : ascii) : bool := negb (PyStr.mem c chars).

Lemma lstrip_inside_prefix (pre s : string) :
  all_chars inside pre = true ->
  PyStr.lstrip chars (pre ++ s) = PyStr.lstrip chars s.
Proof.
  induction pre as [|c pre IH]; simpl; [reflexivity|].
  intros H. apply andb_prop in H as [Hc Hpre].
  unfold inside in Hc. rewrite Hc. auto.
Qed.

Lemma lstrip_outside_head (c : ascii) (s : string) :
  outside c = true -> PyStr.lstrip chars (String c s) = String c s.
Proof.
  unfold outside. intros H. simpl.
  destruct (PyStr.mem c chars); [discriminate | reflexivity].
Qed.

Lemma rstrip_inside (post : string) :
  all_chars inside post = true -> PyStr.rstrip chars post = "".
Proof.
  induction post as [|c post IH]; simpl; [reflexivity|].
  intros H. apply andb_prop in H as [Hc Hpost].
  rewrite (IH Hpost). unfold inside in Hc. rewrite Hc. reflexivity.
Qed.

Lemma rstrip_outside_core (core post : string) :
  all_chars outside core = true ->
  all_chars inside post = true ->
  PyStr.rstrip chars (core ++ post) = core.
Proof.
  intros Hcore Hpost. induction core as [|c core IH]; simpl.
  - apply rstrip_inside, Hpost.
  - simpl in Hcore. apply andb_prop in Hcore as [Hc Hcore].
    rewrite (IH Hcore). unfold outside in Hc.
    destruct core; [|reflexivity].
    destruct (PyStr.mem c chars); [discriminate | reflexivity].
Qed.

(** A core free of the stripped characters survives [strip] whatever
    stripped characters surround it. *)
Lemma strip_core (pre core post : string) :
  all_chars inside pre = true ->
  all_chars outside core = true ->
  all_chars inside post = true ->
  PyStr.strip chars (pre ++ core ++ post) = core.
Proof.
  intros Hpre Hcore Hpost. unfold PyStr.strip.
  rewrite lstrip_inside_prefix by assumption.
  destruct core as [|c core].
  - change ("" ++ post)%string with post.
    assert (E : PyStr.lstrip chars post = "").
    { clear -Hpost. induction post as [|d post IH]; simpl; [reflexivity|].
      simpl in Hpost. apply andb_prop in Hpost as [Hd Hpost].
      unfold inside in Hd. rewrite Hd. auto. }
    rewrite E. reflexivity.
  - simpl in Hcore. apply andb_prop in Hcore as [Hc Hcore].
    change (String c core ++ post)%string with (String c (core ++ post)).
    rewrite lstrip_outside_head by assumption.
    change (String c (core ++ post)) with (String c core ++ post)%string.
    apply rstrip_outside_core; [|assumption].
    simpl. rewrite Hc, Hcore. reflexivity.
Qed.

End StringFacts.

(** ** Parsing digit strings *)

Lemma digit_not_space (c : ascii) : PyStr.is_digit c = true -> PyStr.is_space c = false.
Proof.
  unfold PyStr.is_digit, PyStr.is_space. intros H.
  apply andb_prop in H as [H1 H2].
  apply N.leb_le in H1. apply N.leb_le in H2.
  apply orb_false_iff. split.
  - apply andb_false_iff. right. apply N.leb_gt. lia.
  - apply N.eqb_neq. lia.
Qed.

Lemma digit_not_char (c d : ascii) :
  PyStr.is_digit c = true -> PyStr.is_digit d = false -> Ascii.eqb c d = false.
Proof.
  intros Hc Hd. destruct (Ascii.eqb_spec c d) as [->|]; [congruence | reflexivity].
Qed.

Lemma digit_val_nonneg (c : ascii) : PyStr.is_digit c = true -> 0 <= PyStr.digit_val c.
Proof.
  unfold PyStr.is_digit, PyStr.digit_val. intros H.
  apply andb_prop in H as [H1 _]. apply N.leb_le in H1. lia.
Qed.

Lemma digits_value_from_nonneg (s : string) :
  forall acc, all_chars PyStr.is_digit s = true -> 0 <= acc ->
              0 <= PyStr.digits_value_from acc s.
Proof.
  induction s as [|c s IH]; simpl; intros acc H Hacc; [assumption|].
  apply andb_prop in H as [Hc Hs]. apply IH; [assumption|].
  pose proof (digit_val_nonneg c Hc). lia.
Qed.

Lemma lstrip_space_digits (s : string) :
  all_chars PyStr.is_digit s = true -> PyStr.lstrip_space s = s.
Proof.
  destruct s as [|c s]; simpl; [reflexivity|].
  intros H. apply andb_prop in H as [Hc _].
  rewrite (digit_not_space c Hc). reflexivity.
Qed.

Lemma rstrip_space_digits (s : string) :
  all_chars PyStr.is_digit s = true -> PyStr.rstrip_space s = s.
Proof.
  induction s as [|c s IH]; simpl; [reflexivity|].
  intros H. apply andb_prop in H as [Hc Hs]. rewrite (IH Hs).
  destruct s; [|reflexivity].
  rewrite (digit_not_space c Hc). reflexivity.
Qed.

Lemma drop_underscores_digits (s : string) :
  forall prev, all_chars PyStr.is_digit s = true -> Ascii.eqb prev "_" = false ->
               PyFloat.drop_underscores prev s = Some s.
Proof.
  induction s as [|c s IH]; simpl; intros prev H Hprev.
  - rewrite Hprev. reflexivity.
  - apply andb_prop in H as [Hc Hs].
    assert (Hu : Ascii.eqb c "_" = false) by (apply digit_not_char; [assumption | reflexivity]).
    rewrite Hu, Hprev. simpl. rewrite (IH c Hs Hu). reflexivity.
Qed.

Lemma split_sign_digits (s : string) :
  all_chars PyStr.is_digit s = true -> PyFloat.split_sign s = (false, s).
Proof.
  destruct s as [|c s]; [reflexivity|]. simpl all_chars.
  intros H. apply andb_prop in H as [Hc _].
  destruct c as [[] [] [] [] [] [] [] []]; try discriminate Hc; reflexivity.
Qed.

Lemma span_digits_all (s : string) :
  all_chars PyStr.is_digit s = true -> PyStr.span_digits s = (s, "").
Proof.
  induction s as [|c s IH]; simpl; [reflexivity|].
  intros H. apply andb_prop in H as [Hc Hs].
  rewrite Hc, (IH Hs). reflexivity.
Qed.

Lemma append_empty_r (s : string) : (s ++ "")%string = s.
Proof.
  induction s as [|c s IH]; [reflexivity|].
  change (String c (s ++ "")%string = String c s). now rewrite IH.
Qed.

Lemma of_decimal_integer (z : Z) : 0 <= z -> PyFloat.of_decimal false z 0 = PyFloat.of_Z z.
Proof.
  intros Hz. destruct z as [|p|p]; [reflexivity| |lia].
  unfold PyFloat.of_decimal, PyFloat.of_Z. simpl.
  rewrite Pos.mul_1_r. reflexivity.
Qed.

(** [float] of a non-empty string of digits is the nearest float to the
    number the digits spell. *)
Lemma of_string_digits (ds : string) :
  all_chars PyStr.is_digit ds = true -> ds <> "" ->
  PyFloat.of_string ds = Some (PyFloat.of_Z (PyStr.digits_value ds)).
Proof.
  intros Hds Hne. unfold PyFloat.of_string.
  rewrite lstrip_space_digits, rstrip_space_digits by assumption.
  rewrite drop_underscores_digits by (assumption || reflexivity).
  rewrite split_sign_digits by assumption.
  unfold PyFloat.parse_decimal. rewrite span_digits_all by assumption.
  cbv beta iota. rewrite append_empty_r.
  destruct ds as [|c ds]; [congruence|].
  cbn [PyFloat.parse_exponent String.length Z.of_nat Z.sub Z.opp Z.add].
  rewrite of_decimal_integer; [reflexivity|].
  apply digits_value_from_nonneg; [assumption | lia].
Qed.

(** ** Record Normalizer *)

Lemma digit_or_comma_outside_label (c : ascii) :
  digit_or_comma c = true -> negb (PyStr.mem c " Ether") = true.
Proof.
  destruct c as [[] [] [] [] [] [] [] []]; intros H; try discriminate H; reflexivity.
Qed.

Lemma all_chars_impl (p q : ascii -> bool) (s : string) :
  (forall c, p c = true -> q c = true) -> all_chars p s = true -> all_chars q s = true.
Proof.
  intros Hpq. induction s as [|c s IH]; simpl; [reflexivity|].
  intros H. apply andb_prop in H as [Hc Hs].
  rewrite (Hpq c Hc), (IH Hs). reflexivity.
Qed.

Lemma replace_commas_digits (n : string) :
  all_chars digit_or_comma n = true ->
  all_chars PyStr.is_digit (PyStr.replace "," "" n) = true.
Proof.
  induction n as [|c n IH]; simpl; [reflexivity|].
  intros H. apply andb_prop in H as [Hc Hn].
  destruct (Ascii.eqb c ",") eqn:E; simpl.
  - auto.
  - unfold digit_or_comma in Hc. rewrite E, orb_false_r in Hc.
    rewrite Hc. simpl. auto.
Qed.

(** The balance cell [pre ++ n ++ post], where [pre] and [post] are drawn
    from the characters of the unit label and [n] is a comma-grouped digit string. *)
Lemma balance_of_cell_core (pre n post : string) :
  all_chars (fun c => PyStr.mem c " Ether") pre = true ->
  all_chars (fun c => PyStr.mem c " Ether") post = true ->
  grouped_digits n ->
  balance_of_cell (Some (pre ++ n ++ post)%string)
  = inr (PyFloat.of_Z (PyStr.digits_value (PyStr.replace "," "" n))).
Proof.
  intros Hpre Hpost [Hn Hne]. unfold balance_of_cell.
  rewrite strip_core; try assumption.
  - rewrite of_string_digits; [reflexivity | | assumption].
    apply replace_commas_digits, Hn.
  - revert Hn. apply all_chars_impl, digit_or_comma_outside_label.
Qed.

Lemma txn_count_of_cell_grouped (n : string) :
  grouped_digits n ->
  txn_count_of_cell (Some n)
  = inr (PyFloat.of_Z (PyStr.digits_value (PyStr.replace "," "" n))).
Proof.
  intros [Hn Hne]. unfold txn_count_of_cell.
  rewrite of_string_digits; [reflexivity | | assumption].
  apply replace_commas_digits, Hn.
Qed.

(** ** Integers that are floats *)

Lemma digits2_iter_xO (p k : positive) :
  digits2_pos (Pos.iter xO p k) = (digits2_pos p + k)%positive.
Proof.
  induction k as [|k IH] using Pos.peano_ind.
  - simpl. lia.
  - rewrite Pos.iter_succ. simpl. rewrite IH. lia.
Qed.

Lemma Zpos_iter_xO (p k : positive) :
  Zpos (Pos.iter xO p k) = Zpos p * 2 ^ Zpos k.
Proof.
  induction k as [|k IH] using Pos.peano_ind.
  - simpl. lia.
  - rewrite Pos.iter_succ, Pos2Z.inj_xO, IH, Pos2Z.inj_succ, Z.pow_succ_r by lia. lia.
Qed.

Lemma digits2_lower (p : positive) : 2 ^ (Zpos (digits2_pos p) - 1) <= Zpos p.
Proof.
  induction p as [p IH|p IH|]; simpl digits2_pos.
  - rewrite Pos2Z.inj_succ. replace (Z.succ (Zpos (digits2_pos p)) - 1) with (Z.succ (Zpos (digits2_pos p) - 1)) by lia.
    rewrite Z.pow_succ_r by lia. lia.
  - rewrite Pos2Z.inj_succ. replace (Z.succ (Zpos (digits2_pos p)) - 1) with (Z.succ (Zpos (digits2_pos p) - 1)) by lia.
    rewrite Z.pow_succ_r by lia. lia.
  - simpl. lia.
Qed.

Lemma digits2_small (p : positive) : Zpos p < 2 ^ 53 -> Zpos (digits2_pos p) <= 53.
Proof.
  intros H. destruct (Z_le_gt_dec (Zpos (digits2_pos p)) 53) as [|G]; [assumption|].
  pose proof (digits2_lower p) as L.
  assert (2 ^ 53 <= 2 ^ (Zpos (digits2_pos p) - 1)) by (apply Z.pow_le_mono_r; lia).
  lia.
Qed.

Lemma binary_round_aux_canonical (s : bool) (m : positive) (e : Z) :
  Zpos (digits2_pos m) = 53 -> -1074 <= e <= 971 ->
  binary_round_aux PyFloat.prec PyFloat.emax s (Zpos m) e loc_Exact = S754_finite s m e.
Proof.
  intros Hd He. unfold binary_round_aux, shr_fexp.
  assert (F : fexp PyFloat.prec PyFloat.emax (Zdigits2 (Zpos m) + e) - e = 0).
  { unfold fexp, emin, PyFloat.prec, PyFloat.emax. simpl Zdigits2. rewrite Hd. lia. }
  rewrite F. cbn [shr shr_record_of_loc shr_m loc_of_shr_record round_nearest_even].
  rewrite F. cbn [shr shr_record_of_loc shr_m].
  unfold PyFloat.prec, PyFloat.emax.
  destruct (Z.leb_spec e (1024 - 53)); [reflexivity | lia].
Qed.

Lemma digits2_upper (p : positive) : Zpos p < 2 ^ Zpos (digits2_pos p).
Proof.
  induction p as [p IH|p IH|]; simpl digits2_pos.
  - rewrite Pos2Z.inj_succ, Z.pow_succ_r by lia. lia.
  - rewrite Pos2Z.inj_succ, Z.pow_succ_r by lia. lia.
  - simpl. lia.
Qed.

(** The float of a positive integer below 2^53: its digits pushed up to
    53 bits, and the exponent that undoes the push. *)
Lemma of_Z_pos_form (p : positive) :
  Zpos p < 2 ^ 53 ->
  exists m : positive,
    PyFloat.of_Z (Zpos p) = S754_finite false m (Zpos (digits2_pos p) - 53)
    /\ Zpos m = Zpos p * 2 ^ (53 - Zpos (digits2_pos p)).
Proof.
  intros Hlt. unfold PyFloat.of_Z, binary_normalize, binary_round.
  pose proof (digits2_small p Hlt) as Hd.
  assert (F : fexp PyFloat.prec PyFloat.emax (Zpos (digits2_pos p) + 0) = Zpos (digits2_pos p) - 53).
  { unfold fexp, emin, PyFloat.prec, PyFloat.emax. lia. }
  rewrite F. unfold shl_align.
  destruct (Zpos (digits2_pos p) - 53 - 0) as [|k|k] eqn:E; [| lia |].
  - rewrite binary_round_aux_canonical by lia. exists p.
    replace (Zpos (digits2_pos p) - 53) with 0 by lia.
    split; [reflexivity|]. replace (53 - Zpos (digits2_pos p)) with 0 by lia. lia.
  - rewrite binary_round_aux_canonical.
    + exists (Pos.iter xO p k). split; [reflexivity|].
      rewrite Zpos_iter_xO. f_equal. f_equal. lia.
    + rewrite digits2_iter_xO. lia.
    + lia.
Qed.

Lemma of_Z_exact (z : Z) : 0 <= z < 2 ^ 53 -> represents (PyFloat.of_Z z) z.
Proof.
  intros [Hz Hlt]. destruct z as [|p|p]; [reflexivity| |lia].
  destruct (of_Z_pos_form p Hlt) as (m & -> & Hm).
  pose proof (digits2_small p Hlt). simpl. split; [lia|].
  rewrite Hm. f_equal. f_equal. lia.
Qed.

(** On integers below 2^53 the float comparison is the integer one. *)
Lemma gt_of_Z (x y : Z) :
  0 <= x < 2 ^ 53 -> 0 <= y < 2 ^ 53 ->
  PyFloat.gt (PyFloat.of_Z x) (PyFloat.of_Z y) = (y <? x).
Proof.
  intros [Hx Hxlt] [Hy Hylt]. unfold PyFloat.gt, SFltb.
  destruct x as [|p|p]; [| |lia]; (destruct y as [|q|q]; [| |lia]).
  - reflexivity.
  - destruct (of_Z_pos_form q Hylt) as (mq & -> & _). reflexivity.
  - destruct (of_Z_pos_form p Hxlt) as (mp & -> & _). reflexivity.
  - destruct (of_Z_pos_form p Hxlt) as (mp & -> & Hmp).
    destruct (of_Z_pos_form q Hylt) as (mq & -> & Hmq).
    pose proof (digits2_lower p). pose proof (digits2_upper p).
    pose proof (digits2_lower q). pose proof (digits2_upper q).
    pose proof (digits2_small p Hxlt). pose proof (digits2_small q Hylt).
    cbn [SFcompare].
    destruct (Z.compare_spec (Zpos (digits2_pos q) - 53) (Zpos (digits2_pos p) - 53))
      as [E|L|G].
    + assert (Ed : Zpos (digits2_pos q) = Zpos (digits2_pos p)) by lia.
      rewrite Ed in Hmq.
      change (Pos.compare_cont Eq mq mp) with (Z.compare (Zpos mq) (Zpos mp)).
      rewrite Hmp, Hmq.
      assert (0 < 2 ^ (53 - Zpos (digits2_pos p))) by (apply Z.pow_pos_nonneg; lia).
      unfold Z.ltb.
      destruct (Z.compare_spec (Zpos q) (Zpos p)) as [E'|L'|G'];
        destruct (Z.compare_spec (Zpos q * 2 ^ (53 - Zpos (digits2_pos p)))
                                 (Zpos p * 2 ^ (53 - Zpos (digits2_pos p))));
        try reflexivity; nia.
    + assert (2 ^ Zpos (digits2_pos q) <= 2 ^ (Zpos (digits2_pos p) - 1))
        by (apply Z.pow_le_mono_r; lia).
      symmetry. apply Z.ltb_lt. lia.
    + assert (2 ^ Zpos (digits2_pos p) <= 2 ^ (Zpos (digits2_pos q) - 1))
        by (apply Z.pow_le_mono_r; lia).
      symmetry. apply Z.ltb_ge. lia.
Qed.

(** C5. Record Normalizer: a balance "N Ether" with N a comma-grouped
    digit string, and a txn_count N, both normalize to the float of the
    number N spells once the commas are removed; below 2^53 that float is
    the number itself. *)
Theorem normalizer_grouped_digits (n : string) :
  grouped_digits n ->
  let v := PyStr.digits_value (PyStr.replace "," "" n) in
  balance_of_cell (Some (n ++ " Ether")%string) = inr (PyFloat.of_Z v)
  /\ txn_count_of_cell (Some n) = inr (PyFloat.of_Z v)
  /\ (v < 2 ^ 53 -> represents (PyFloat.of_Z v) v).
Proof.
  intros Hn v. split; [|split].
  - apply (balance_of_cell_core "" n " Ether"); [reflexivity | reflexivity | assumption].
  - apply txn_count_of_cell_grouped, Hn.
  - intros Hv. apply of_Z_exact. split; [|assumption].
    destruct Hn as [Hn _].
    apply digits_value_from_nonneg; [apply replace_commas_digits, Hn | lia].
Qed.

Lemma normalizer_grouped_digits_witness :
  balance_of_cell (Some "12,345 Ether") = inr (PyFloat.of_Z 12345)
  /\ txn_count_of_cell (Some "12,345") = inr (PyFloat.of_Z 12345)
  /\ represents (PyFloat.of_Z 12345) 12345.
Proof.
  assert (G : grouped_digits "12,345") by (split; [reflexivity | discriminate]).
  destruct (normalizer_grouped_digits "12,345" G) as (Hb & Ht & Hx).
  split; [exact Hb | split; [exact Ht | apply Hx; reflexivity]].
Defined.

(** C10. The unit label is removed as a set of characters from both ends:
    whatever characters of " Ether" stand before and after a digit core,
    in any order, the balance normalizes to the value of the core; so
    "Ether 5" and "5 rethE" both give 5.0. *)
Theorem strip_label_is_character_set (pre n post : string) :
  all_chars (fun c => PyStr.mem c " Ether") pre = true ->
  all_chars (fun c => PyStr.mem c " Ether") post = true ->
  grouped_digits n ->
  balance_of_cell (Some (pre ++ n ++ post)%string)
  = inr (PyFloat.of_Z (PyStr.digits_value (PyStr.replace "," "" n))).
Proof. apply balance_of_cell_core. Qed.

Lemma strip_label_is_character_set_witness :
  balance_of_cell (Some "Ether 5") = inr (PyFloat.of_Z 5)
  /\ balance_of_cell (Some "5 rethE") = inr (PyFloat.of_Z 5).
Proof.
  assert (G : grouped_digits "5") by (split; [reflexivity | discriminate]).
  split.
  - apply (strip_label_is_character_set "Ether " "5" ""); [reflexivity | reflexivity | exact G].
  - apply (strip_label_is_character_set "" "5" " rethE"); [reflexivity | reflexivity | exact G].
Defined.

(** ** Exchange Table Builder *)

Lemma apply_inr {A B} (f : A -> fallible B) (xs : list A) (ys : list B) :
  apply f xs = inr ys <-> Forall2 (fun x y => f x = inr y) xs ys.
Proof.
  revert ys. induction xs as [|x xs IH]; intros ys; simpl.
  - split; intros H.
    + inversion H. constructor.
    + inversion H. reflexivity.
  - split; intros H.
    + destruct (f x) as [e|y] eqn:Ex; [discriminate|].
      destruct (apply f xs) as [e|ys'] eqn:Exs; [discriminate|].
      inversion H; subst. constructor; [assumption|]. apply IH. reflexivity.
    + inversion H as [|x' y xs' ys' Hxy Hrest]; subst.
      rewrite Hxy. apply IH in Hrest. rewrite Hrest. reflexivity.
Qed.

Lemma width_bounds (data : list row) :
  Forall (fun r => (List.length r <= width data)%nat) data.
Proof.
  induction data as [|r data IH]; simpl; constructor.
  - lia.
  - eapply List.Forall_impl; [|exact IH]. simpl. intros; lia.
Qed.

Lemma frame_ok_bounds (data : list row) :
  frame_ok data = true -> Forall (fun r => (List.length r <= 4)%nat) data.
Proof.
  destruct data as [|r data]; [constructor|].
  unfold frame_ok. intros H. apply Nat.eqb_eq in H.
  rewrite <- H. apply width_bounds.
Qed.

Lemma width_uniform (data : list row) :
  data <> [] -> Forall (fun r => List.length r = 4%nat) data -> width data = 4%nat.
Proof.
  induction data as [|r data IH]; [congruence|].
  intros _ H. inversion H as [|r' data' Hr Hdata]; subst. simpl. rewrite Hr.
  destruct data as [|r2 data]; [reflexivity|].
  rewrite IH; [reflexivity | discriminate | assumption].
Qed.

Lemma row_matches_length (r : row) (e : exchange) :
  row_matches r e -> List.length r = 4%nat.
Proof. intros (b & t & -> & _). reflexivity. Qed.

Lemma row_matches_intro (r : row) (x y : PyFloat.float) :
  (List.length r <= 4)%nat ->
  balance_of_cell (nth_error r 2) = inr x ->
  txn_count_of_cell (nth_error r 3) = inr y ->
  row_matches r (make_exchange r x y).
Proof.
  intros Hlen Hb Ht.
  destruct r as [|a [|n [|b [|t [|extra r]]]]]; simpl in *; try discriminate; try lia.
  exists b, t. auto.
Qed.

Lemma zip_exchanges_sound (data : list row) :
  forall bs ts,
    Forall (fun r => (List.length r <= 4)%nat) data ->
    Forall2 (fun r x => balance_of_cell (nth_error r 2) = inr x) data bs ->
    Forall2 (fun r y => txn_count_of_cell (nth_error r 3) = inr y) data ts ->
    Forall2 row_matches data (zip_exchanges data bs ts).
Proof.
  induction data as [|r data IH]; intros bs ts Hlen Hbs Hts.
  - constructor.
  - inversion Hlen; subst. inversion Hbs; subst. inversion Hts; subst.
    simpl. constructor; [apply row_matches_intro; assumption | auto].
Qed.

Lemma zip_exchanges_complete (data : list row) (table : list exchange) :
  Forall2 row_matches data table ->
  Forall2 (fun r x => balance_of_cell (nth_error r 2) = inr x) data (map balance table)
  /\ Forall2 (fun r y => txn_count_of_cell (nth_error r 3) = inr y) data (map txn_count table)
  /\ zip_exchanges data (map balance table) (map txn_count table) = table.
Proof.
  induction 1 as [|r e data table (b & t & -> & Hb & Ht) _ (IHb & IHt & IHz)]; simpl.
  - repeat split; constructor.
  - repeat split; try (constructor; assumption).
    rewrite IHz. destruct e; reflexivity.
Qed.

(** The table built from a page is characterized row by row. *)
Lemma format_exchange_data_spec (rows : list row) (table : list exchange) :
  _format_exchange_data rows = inr table <-> Forall2 row_matches (tl rows) table.
Proof.
  unfold _format_exchange_data. set (data := tl rows). split.
  - destruct (frame_ok data) eqn:Hok; [|discriminate].
    destruct (apply (fun r => balance_of_cell (nth_error r 2)) data)
      as [e|bs] eqn:Hbs; [discriminate|].
    destruct (apply (fun r => txn_count_of_cell (nth_error r 3)) data)
      as [e|ts] eqn:Hts; [discriminate|].
    intros H. inversion H; subst table.
    apply zip_exchanges_sound.
    + apply frame_ok_bounds, Hok.
    + apply apply_inr in Hbs. exact Hbs.
    + apply apply_inr in Hts. exact Hts.
  - intros H.
    assert (Hok : frame_ok data = true).
    { destruct data as [|r data'] eqn:E; [reflexivity|].
      unfold frame_ok. apply Nat.eqb_eq, width_uniform; [discriminate|].
      clear -H. induction H; constructor; eauto using row_matches_length. }
    rewrite Hok.
    destruct (zip_exchanges_complete data table H) as (Hb & Ht & Hz).
    apply apply_inr in Hb. apply apply_inr in Ht.
    rewrite Hb, Ht, Hz. reflexivity.
Qed.

(** C6. Exchange Table Builder: the first row is dropped whatever it
    holds; the table has one record per remaining row, in order, each row
    giving address, name, balance and txn_count by position; three rows
    in, two records out. *)
Theorem builder_discards_first_row (rows : list row) (table : list exchange) :
  (forall header header' data,
      _format_exchange_data (header :: data) = _format_exchange_data (header' :: data))
  /\ (_format_exchange_data rows = inr table <-> Forall2 row_matches (tl rows) table)
  /\ (_format_exchange_data rows = inr table ->
      List.length rows = 3%nat -> List.length table = 2%nat).
Proof.
  split; [reflexivity|]. split; [apply format_exchange_data_spec|].
  intros H Hlen. apply format_exchange_data_spec in H.
  apply Forall2_length in H. rewrite <- H.
  destruct rows; simpl in *; lia.
Qed.

Lemma builder_discards_first_row_witness :
  _format_exchange_data three_rows = inr three_rows_table
  /\ List.length three_rows_table = 2%nat.
Proof.
  assert (E : _format_exchange_data three_rows = inr three_rows_table)
    by (vm_compute; reflexivity).
  split; [exact E|].
  exact (proj2 (proj2 (builder_discards_first_row three_rows three_rows_table)) E eq_refl).
Defined.

(** ** Exchange Filter *)

Lemma select_mask_and {A} (p q : A -> bool) (df : list A) :
  select df (mask_and (map p df) (map q df)) = List.filter (fun r => p r && q r) df.
Proof.
  induction df as [|r df IH]; simpl; [reflexivity|].
  rewrite IH. reflexivity.
Qed.

Lemma top_exchanges_filter (df : list exchange) (b c : PyFloat.float) :
  top_exchanges df b c = List.filter (exceeds b c) df.
Proof. apply select_mask_and. Qed.

Lemma filter_all {A} (p : A -> bool) (l : list A) :
  List.Forall (fun x => p x = true) l -> List.filter p l = l.
Proof.
  induction 1 as [|x l Hx _ IH]; simpl; [reflexivity|].
  rewrite Hx, IH. reflexivity.
Qed.

Lemma filter_holds {A} (p : A -> bool) (l : list A) :
  List.Forall (fun x => p x = true) (List.filter p l).
Proof.
  induction l as [|x l IH]; simpl; [constructor|].
  destruct (p x) eqn:E; [constructor; assumption | assumption].
Qed.

Lemma compare_cont_refl (m : positive) : Pos.compare_cont Eq m m = Eq.
Proof. apply Pos.compare_refl. Qed.

(** The comparison is strict: nothing exceeds itself. *)
Lemma gt_irrefl (x : PyFloat.float) : PyFloat.gt x x = false.
Proof.
  unfold PyFloat.gt, SFltb.
  destruct x as [s|s| |s m e]; simpl; try (destruct s; reflexivity); try reflexivity.
  rewrite Z.compare_refl, compare_cont_refl. destruct s; reflexivity.
Qed.

(** C4. Exchange Filter: the output is the addresses, in table order, of
    exactly the rows whose balance exceeds the balance threshold and whose
    txn_count exceeds the count threshold, both strictly: a field equal to
    its threshold does not pass, and on whole numbers below 2^53 the
    comparison is the order of the integers.  On the records A (2500,
    500000) and B (1000, 500000) with the default thresholds the output
    is the single address A. *)
Theorem filter_selects_both_conditions (df : list exchange) (b c : PyFloat.float) :
  filter_top_exchange_addresses df b c
  = map address (List.filter (fun r => PyFloat.gt (balance r) b && PyFloat.gt (txn_count r) c) df)
  /\ (forall r, balance r = b \/ txn_count r = c -> exceeds b c r = false)
  /\ (forall x y, 0 <= x < 2 ^ 53 -> 0 <= y < 2 ^ 53 ->
                  PyFloat.gt (PyFloat.of_Z x) (PyFloat.of_Z y) = (y <? x))
  /\ filter_top_exchange_addresses [record_A; record_B]
       default_min_balance default_min_txn_count = ["A"].
Proof.
  split; [|split; [|split]].
  - unfold filter_top_exchange_addresses. rewrite top_exchanges_filter. reflexivity.
  - intros r [<-|<-]; unfold exceeds; rewrite gt_irrefl.
    + reflexivity.
    + apply andb_false_r.
  - apply gt_of_Z.
  - vm_compute. reflexivity.
Qed.

Lemma filter_selects_both_conditions_witness :
  exceeds default_min_balance default_min_txn_count
          {| address := "C"; name := ""; balance := PyFloat.of_Z 2000;
             txn_count := PyFloat.of_Z 500000 |} = false.
Proof.
  apply (proj1 (proj2 (filter_selects_both_conditions [] default_min_balance default_min_txn_count))).
  left. reflexivity.
Defined.

(** C8, amended.  What the filter returns is the column of addresses, and
    the filter run again on that column raises, for want of a balance
    column.  Idempotence holds of the rows the filter keeps: filtering
    them again, with the same thresholds, keeps them all and returns the
    same addresses; and on any table whose records already meet both
    conditions the filter returns every address. *)
Theorem filter_idempotent (df : list exchange) (b c : PyFloat.float) :
  top_exchanges (top_exchanges df b c) b c = top_exchanges df b c
  /\ filter_top_exchange_addresses (top_exchanges df b c) b c
     = filter_top_exchange_addresses df b c
  /\ filter_top_exchange_addresses_on (DataFrame (top_exchanges df b c)) b c
     = filter_top_exchange_addresses_on (DataFrame df) b c
  /\ (List.Forall (fun r => exceeds b c r = true) df ->
      filter_top_exchange_addresses df b c = map address df)
  /\ (forall out,
        filter_top_exchange_addresses_on (DataFrame df) b c = inr out ->
        filter_top_exchange_addresses_on out b c = inl (KeyError "balance")).
Proof.
  assert (E : top_exchanges (top_exchanges df b c) b c = top_exchanges df b c).
  { rewrite !top_exchanges_filter. apply filter_all, filter_holds. }
  assert (E' : filter_top_exchange_addresses (top_exchanges df b c) b c
               = filter_top_exchange_addresses df b c).
  { unfold filter_top_exchange_addresses. rewrite E. reflexivity. }
  split; [exact E|]. split; [exact E'|]. split; [|split].
  - unfold filter_top_exchange_addresses_on. rewrite E'. reflexivity.
  - intros H. unfold filter_top_exchange_addresses.
    rewrite top_exchanges_filter, filter_all by assumption. reflexivity.
  - intros out Hout. inversion Hout; subst. reflexivity.
Qed.

Lemma filter_idempotent_witness :
  filter_top_exchange_addresses [record_A] default_min_balance default_min_txn_count = ["A"]
  /\ filter_top_exchange_addresses_on (Series ["A"]) default_min_balance default_min_txn_count
     = inl (KeyError "balance").
Proof.
  destruct (filter_idempotent [record_A] default_min_balance default_min_txn_count)
    as (_ & _ & _ & Hall & Hrerun).
  split.
  - apply Hall. constructor; [vm_compute; reflexivity | constructor].
  - apply (Hrerun (Series ["A"])). vm_compute. reflexivity.
Defined.

(** C8 as first worded, refuted: the filter run on its own output does
    not return that output, it raises. *)
Lemma filter_rerun_on_own_output_raises :
  filter_top_exchange_addresses_on (DataFrame [record_A; record_B])
    default_min_balance default_min_txn_count = inr (Series ["A"])
  /\ filter_top_exchange_addresses_on (Series ["A"])
       default_min_balance default_min_txn_count = inl (KeyError "balance")
  /\ ~ (forall df b c out,
          filter_top_exchange_addresses_on (DataFrame df) b c = inr out ->
          filter_top_exchange_addresses_on out b c = inr out).
Proof.
  assert (E : filter_top_exchange_addresses_on (DataFrame [record_A; record_B])
                default_min_balance default_min_txn_count = inr (Series ["A"]))
    by (vm_compute; reflexivity).
  split; [exact E|]. split; [reflexivity|].
  intros H. specialize (H _ _ _ _ E). discriminate H.
Qed.

(** ** Exchange Scraper *)

Section ScraperFacts.

Variable World : Type.
Variable get_listing : World -> Z -> Z -> option (list row) * World.

Local Open Scope list_scope.

Abbreviation loop := (scrape_loop World get_listing).
Abbreviation scrape := (scrape_exchanges World get_listing).
Abbreviation served := (serves World get_listing).

Lemma stripped_length (trs : list row) : List.length (stripped trs) = List.length trs.
Proof. apply List.length_map. Qed.

(** One round of the loop. *)
Lemma scrape_loop_step (fuel : nat) (p : Z) (acc : list (list exchange))
      (s : scraper_state World) :
  loop (S fuel) 100 p acc s
  = let '(page, w') := get_listing (listing_world s) p 100 in
    let s' := Build_scraper_state w' (requested s ++ [p]) in
    match page with
    | None => (Raised NoTable, s')
    | Some trs =>
        if (List.length trs <=? 2)%nat then (Returned acc, s')
        else match _format_exchange_data (stripped trs) with
             | inl e => (Raised e, s')
             | inr fragment => loop fuel 100 (p + 1) (acc ++ [fragment]) s'
             end
    end.
Proof.
  cbn [scrape_loop]. unfold bind at 1, fetch_rows.
  destruct (get_listing (listing_world s) p 100) as [[trs|] w']; [|reflexivity].
  rewrite stripped_length.
  destruct (List.length trs <=? 2)%nat; [reflexivity|].
  unfold bind, lift.
  destruct (_format_exchange_data (stripped trs)); reflexivity.
Qed.

Lemma pages_from_snoc (p : Z) (n : nat) :
  pages_from p (S n) = pages_from p n ++ [p + Z.of_nat n].
Proof.
  revert p. induction n as [|n IH]; intros p.
  - simpl. f_equal. lia.
  - change (pages_from p (S (S n))) with (p :: pages_from (p + 1) (S n)).
    rewrite IH. simpl. do 3 f_equal. lia.
Qed.

(** If the site serves [full], all pages of more than two rows that
    format, and then [last] of at most two rows, the loop returns the
    fragments of [full] after asking for each of these pages once. *)
Lemma scrape_loop_complete (full : list (list row)) :
  forall (frags : list (list exchange)) (last : list row) (w w' : World) (p : Z)
         (acc : list (list exchange)) (log : list Z) (fuel : nat),
    served w p (full ++ [last]) w' ->
    Forall (fun trs => (2 < List.length trs)%nat) full ->
    (List.length last <= 2)%nat ->
    Forall2 (fun trs fragment => _format_exchange_data (stripped trs) = inr fragment) full frags ->
    (List.length full < fuel)%nat ->
    loop fuel 100 p acc (Build_scraper_state w log)
    = (Returned (acc ++ frags),
       Build_scraper_state w' (log ++ pages_from p (S (List.length full)))).
Proof.
  induction full as [|trs full IH];
    intros frags last w w' p acc log fuel Hserves Hfull Hlast Hfrags Hfuel;
    (destruct fuel as [|fuel]; [simpl in Hfuel; lia|]);
    rewrite scrape_loop_step; cbn [listing_world requested].
  - inversion Hserves as [|? ? ? w1 ? ? Hget Hrest]; subst.
    inversion Hrest; subst. rewrite Hget.
    destruct (Nat.leb_spec (List.length last) 2); [|lia].
    inversion Hfrags; subst. rewrite app_nil_r. reflexivity.
  - inversion Hserves as [|? ? ? w1 ? ? Hget Hrest]; subst. rewrite Hget.
    inversion Hfull as [|? ? Hlen Hfull']; subst.
    destruct (Nat.leb_spec (List.length trs) 2); [lia|].
    inversion Hfrags as [|? fragment ? frags' Hfmt Hfrags']; subst.
    rewrite Hfmt.
    rewrite (IH frags' last w1 w' (p + 1) (acc ++ [fragment]) (log ++ [p]) fuel);
      try assumption; [|simpl in Hfuel; lia].
    rewrite <- !app_assoc. reflexivity.
Qed.

(** Whatever the site does, the loop asks for consecutive pages, and what
    it returns is the fragments of the pages before the first short one. *)
Lemma scrape_loop_sound (fuel : nat) :
  forall (p : Z) (acc : list (list exchange)) (s s' : scraper_state World)
         (out : outcome (list (list exchange))),
    loop fuel 100 p acc s = (out, s') ->
    exists n : nat,
      requested s' = requested s ++ pages_from p n
      /\ (fuel <> O -> n <> O)
      /\ forall frs, out = Returned frs ->
           exists full last frags,
             n = S (List.length full)
             /\ served (listing_world s) p (full ++ [last]) (listing_world s')
             /\ Forall (fun trs => (2 < List.length trs)%nat) full
             /\ (List.length last <= 2)%nat
             /\ Forall2 (fun trs fragment => _format_exchange_data (stripped trs) = inr fragment)
                        full frags
             /\ frs = acc ++ frags.
Proof.
  induction fuel as [|fuel IH]; intros p acc s s' out Hrun.
  - simpl in Hrun. inversion Hrun; subst. exists O. simpl.
    rewrite app_nil_r. split; [reflexivity|]. split; [congruence | discriminate].
  - rewrite scrape_loop_step in Hrun.
    destruct (get_listing (listing_world s) p 100) as [[trs|] w1] eqn:Hget.
    + destruct (Nat.leb_spec (List.length trs) 2) as [Hshort|Hlong].
      * inversion Hrun; subst. exists 1%nat. simpl.
        split; [reflexivity|]. split; [discriminate|].
        intros frs Hfrs. inversion Hfrs; subst.
        exists [], trs, []. simpl. rewrite app_nil_r.
        split; [reflexivity|].
        split; [econstructor; [exact Hget | constructor]|].
        split; [constructor|]. split; [exact Hshort|].
        split; [constructor | reflexivity].
      * destruct (_format_exchange_data (stripped trs)) as [e|fragment] eqn:Hfmt.
        -- inversion Hrun; subst. exists 1%nat. simpl.
           split; [reflexivity|]. split; discriminate.
        -- apply IH in Hrun as (n & Hlog & _ & Hret). cbn [requested listing_world] in *.
           exists (S n). simpl. rewrite Hlog, <- app_assoc.
           split; [reflexivity|]. split; [discriminate|].
           intros frs Hfrs.
           destruct (Hret frs Hfrs) as (full & last & frags & Hn & Hs & Hf & Hl & Hfr & Hacc).
           exists (trs :: full), last, (fragment :: frags). simpl.
           split; [congruence|].
           split; [econstructor; [exact Hget | exact Hs]|].
           split; [constructor; assumption|]. split; [exact Hl|].
           split; [constructor; assumption|].
           rewrite Hacc, <- app_assoc. reflexivity.
    + inversion Hrun; subst. exists 1%nat. simpl.
      split; [reflexivity|]. split; discriminate.
Qed.

(** C3. Exchange Scraper termination and request count: when the site
    serves pages of more than two rows and then a page of two rows or
    fewer, the scraper stops at that page, returns the records of the pages
    before it and of no other, and has asked for each of these pages once,
    the short one included. *)
Theorem scraper_stops_at_first_short_page
        (full : list (list row)) (last : list row) (frags : list (list exchange))
        (w w' : World) (log : list Z) (fuel : nat) :
  served w 1 (full ++ [last]) w' ->
  Forall (fun trs => (2 < List.length trs)%nat) full ->
  (List.length last <= 2)%nat ->
  Forall2 (fun trs fragment => _format_exchange_data (stripped trs) = inr fragment) full frags ->
  full <> [] ->
  (List.length full < fuel)%nat ->
  scrape fuel (Build_scraper_state w log)
  = (Returned (List.concat frags),
     Build_scraper_state w' (log ++ pages_from 1 (S (List.length full)))).
Proof.
  intros Hserves Hfull Hlast Hfrags Hne Hfuel.
  unfold scrape_exchanges, bind.
  rewrite (scrape_loop_complete full frags last w w' 1 [] log fuel) by assumption.
  simpl. destruct frags as [|fragment frags]; [|reflexivity].
  inversion Hfrags; subst. congruence.
Qed.

Lemma page_records_format (pages : list (list row)) (frags : list (list exchange)) :
  Forall2 page_records pages frags <->
  Forall2 (fun trs fragment => _format_exchange_data (stripped trs) = inr fragment)
          pages frags.
Proof.
  split; induction 1 as [|trs fragment pages frags H _ IH]; constructor;
    try exact IH; apply format_exchange_data_spec, H.
Qed.

(** C7. Exchange Scraper ordering.  When the site serves pages that hold
    data, whose records are the fragments, and then a short page, the
    scraper returns the fragments put end to end in page order, each
    fragment holding the records of its page in row order, after asking
    for pages 1, 2, ... in turn.  And whatever the site does, every run
    asks for page 1 first and for consecutive pages after it, and a table
    it returns is of that form. *)
Theorem scraper_rows_in_page_order (fuel : nat) (s : scraper_state World) :
  (forall pages last frags w',
      served (listing_world s) 1 (pages ++ [last]) w' ->
      Forall (fun trs => (2 < List.length trs)%nat) pages ->
      (List.length last <= 2)%nat ->
      Forall2 page_records pages frags ->
      pages <> [] ->
      (List.length pages <= fuel)%nat ->
      scrape (S fuel) s
      = (Returned (List.concat frags),
         Build_scraper_state
           w' (requested s ++ pages_from 1 (S (List.length pages)))))
  /\ (forall out s',
        scrape (S fuel) s = (out, s') ->
        (exists n : nat, requested s' = requested s ++ pages_from 1 (S n))
        /\ forall table, out = Returned table ->
             exists pages last frags,
               served (listing_world s) 1 (pages ++ [last]) (listing_world s')
               /\ requested s' = requested s ++ pages_from 1 (S (List.length pages))
               /\ Forall2 page_records pages frags
               /\ table = List.concat frags).
Proof.
  split.
  - intros pages last frags w' Hserves Hfull Hlast Hfrags Hne Hfuel.
    destruct s as [w log]. cbn [listing_world requested] in *.
    apply page_records_format in Hfrags.
    unfold scrape_exchanges, bind.
    rewrite (scrape_loop_complete pages frags last w w' 1 [] log (S fuel))
      by (assumption || lia).
    cbn [app]. unfold lift, pd_concat.
    destruct frags as [|fragment frags]; [|reflexivity].
    inversion Hfrags; subst. congruence.
  - unfold scrape_exchanges, bind. intros out s' Hrun.
    destruct (loop (S fuel) 100 1 [] s) as [o1 s1] eqn:E.
    apply scrape_loop_sound in E as (n & Hlog & Hn & Hret).
    assert (Hs : s' = s1).
    { destruct o1 as [frs|e|]; try (inversion Hrun; reflexivity).
      unfold lift in Hrun. destruct (pd_concat frs); inversion Hrun; reflexivity. }
    subst s1. split.
    + destruct n as [|n]; [exfalso; apply Hn; [discriminate | reflexivity]|].
      exists n. exact Hlog.
    + intros table ->. destruct o1 as [frs|e|]; try discriminate Hrun.
      destruct (Hret frs eq_refl) as (full & last & frags & -> & Hs & _ & _ & Hfr & ->).
      exists full, last, frags. split; [exact Hs|]. split; [exact Hlog|]. split.
      * apply page_records_format, Hfr.
      * simpl in Hrun. unfold lift, pd_concat in Hrun.
        destruct frags; inversion Hrun; reflexivity.
Qed.

(** C9. When the first listing page already has two rows or fewer, no
    fragment was collected and the final concatenation raises: the scraper
    does not return an empty table. *)
Theorem scraper_raises_on_short_first_page
        (fuel : nat) (w w' : World) (log : list Z) (trs : list row) :
  get_listing w 1 100 = (Some trs, w') ->
  (List.length trs <= 2)%nat ->
  scrape (S fuel) (Build_scraper_state w log)
  = (Raised NoObjectsToConcatenate, Build_scraper_state w' (log ++ [1])).
Proof.
  intros Hget Hshort. unfold scrape_exchanges, bind.
  rewrite scrape_loop_step. cbn [listing_world requested]. rewrite Hget.
  destruct (Nat.leb_spec (List.length trs) 2); [reflexivity | lia].
Qed.

End ScraperFacts.

Lemma scraper_stops_at_first_short_page_witness :
  scrape_exchanges unit stub_listing 10 (Build_scraper_state tt [])
  = (Returned (repeat (stub_record 1) 100 ++ repeat (stub_record 2) 100
               ++ repeat (stub_record 3) 100)%list,
     Build_scraper_state tt [1; 2; 3; 4]).
Proof.
  apply (scraper_stops_at_first_short_page unit stub_listing
           [ [] :: repeat (stub_row 1) 100; [] :: repeat (stub_row 2) 100;
             [] :: repeat (stub_row 3) 100 ]
           [[]; ["No matching entries"]]
           [ repeat (stub_record 1) 100; repeat (stub_record 2) 100;
             repeat (stub_record 3) 100 ]
           tt tt [] 10).
  - repeat (econstructor; [reflexivity|]). constructor.
  - repeat (constructor; [apply Nat.ltb_lt; reflexivity|]). constructor.
  - apply Nat.leb_le. reflexivity.
  - repeat (constructor; [vm_compute; reflexivity|]). constructor.
  - discriminate.
  - apply Nat.ltb_lt. reflexivity.
Defined.

Lemma scraper_raises_on_short_first_page_witness :
  scrape_exchanges unit empty_listing 1 (Build_scraper_state tt [])
  = (Raised NoObjectsToConcatenate, Build_scraper_state tt [1]).
Proof.
  apply (scraper_raises_on_short_first_page unit empty_listing 0 tt tt []
           [[]; ["No matching entries"]]).
  - reflexivity.
  - apply Nat.leb_le. reflexivity.
Defined.

Lemma scraper_rows_in_page_order_witness :
  scrape_exchanges unit stub_listing 10 (Build_scraper_state tt [])
  = (Returned (List.concat [ repeat (stub_record 1) 100; repeat (stub_record 2) 100;
                             repeat (stub_record 3) 100 ]),
     Build_scraper_state tt ([] ++ pages_from 1 4)%list).
Proof.
  apply (proj1 (scraper_rows_in_page_order unit stub_listing 9 (Build_scraper_state tt []))
           [ [] :: repeat (stub_row 1) 100; [] :: repeat (stub_row 2) 100;
             [] :: repeat (stub_row 3) 100 ]
           [[]; ["No matching entries"]]
           [ repeat (stub_record 1) 100; repeat (stub_record 2) 100;
             repeat (stub_record 3) 100 ]
           tt).
  - repeat (econstructor; [reflexivity|]). constructor.
  - repeat (constructor; [apply Nat.ltb_lt; reflexivity|]). constructor.
  - apply Nat.leb_le. reflexivity.
  - repeat (constructor;
            [apply format_exchange_data_spec; vm_compute; reflexivity|]).
    constructor.
  - discriminate.
  - apply Nat.leb_le. reflexivity.
Defined.

(** ** Transaction History Fetcher *)

Lemma pages_from_In (n : nat) :
  forall p q, In q (pages_from p n) <-> p <= q < p + Z.of_nat n.
Proof.
  induction n as [|n IH]; intros p q.
  - simpl. lia.
  - change (pages_from p (S n)) with (p :: pages_from (p + 1) n).
    simpl In. rewrite IH. lia.
Qed.

Lemma pages_from_length (n : nat) : forall p, List.length (pages_from p n) = n.
Proof. induction n as [|n IH]; intros p; simpl; [reflexivity | now rewrite IH]. Qed.

Section FetcherFacts.

Variable World : Type.
Variable Txn : Type.
Variable get_txlist : World -> txlist_request -> api_response Txn * World.
Variable getpass : World -> string -> string * World.

Local Open Scope list_scope.

Abbreviation paging := (page_loop World Txn get_txlist).
Abbreviation each_address := (for_each_address World Txn get_txlist).
Abbreviation history := (get_txn_history World Txn get_txlist getpass).

(** One round of the paging loop. *)
Lemma page_loop_step (fuel : nat) (address api_key : string) (offset page : Z)
      (txns : list (list Txn)) (s : fetcher_state World) :
  paging (S fuel) address api_key offset page txns s
  = if page * offset <=? 10000 then
      let '(response, w') := get_txlist (api_world s) (txlist_query address api_key offset page) in
      let s' := Build_fetcher_state w' (issued s ++ [txlist_query address api_key offset page]) in
      if negb (String.eqb (status response) "1") then (Returned txns, s')
      else match frame_of_result Txn (result response) with
           | inl e => (Raised e, s')
           | inr frame => paging fuel address api_key offset (page + 1) (txns ++ [frame]) s'
           end
    else (Returned txns, s).
Proof.
  cbn [page_loop]. destruct (page * offset <=? 10000); [|reflexivity].
  unfold bind at 1, requests_get.
  destruct (get_txlist (api_world s) (txlist_query address api_key offset page))
    as [response w'].
  destruct (negb (String.eqb (status response) "1")); [reflexivity|].
  unfold bind, lift. destruct (frame_of_result Txn (result response)); reflexivity.
Qed.

(** The requests of one address: consecutive pages, each within the cap. *)
Lemma page_loop_requests (fuel : nat) (address api_key : string) (offset : Z) :
  forall (page : Z) (txns : list (list Txn)) (s s' : fetcher_state World)
         (out : outcome (list (list Txn))),
    paging fuel address api_key offset page txns s = (out, s') ->
    exists n : nat,
      issued s' = issued s ++ map (txlist_query address api_key offset) (pages_from page n)
      /\ (forall p, In p (pages_from page n) -> p * offset <= 10000).
Proof.
  induction fuel as [|fuel IH]; intros page txns s s' out Hrun.
  - exists O. simpl in *. rewrite app_nil_r.
    destruct (page * offset <=? 10000); inversion Hrun; subst; tauto.
  - rewrite page_loop_step in Hrun.
    destruct (Z.leb_spec (page * offset) 10000) as [Hcap|Hcap].
    + destruct (get_txlist (api_world s) (txlist_query address api_key offset page))
        as [response w'].
      assert (Hone : forall p, In p (pages_from page 1) -> p * offset <= 10000)
        by (intros p [<-|[]]; exact Hcap).
      destruct (negb (String.eqb (status response) "1")).
      * inversion Hrun; subst. exists 1%nat. split; [reflexivity | exact Hone].
      * destruct (frame_of_result Txn (result response)) as [e|frame].
        -- inversion Hrun; subst. exists 1%nat. split; [reflexivity | exact Hone].
        -- apply IH in Hrun as (n & Hlog & Hpages). cbn [issued] in Hlog.
           exists (S n). split.
           ++ rewrite Hlog, <- app_assoc. reflexivity.
           ++ intros p [<-|Hp]; [exact Hcap | apply Hpages, Hp].
    + inversion Hrun; subst. exists O. simpl. rewrite app_nil_r. tauto.
Qed.

(** With a positive page size the loop ends on its own within
    [10000 / offset] requests. *)
Lemma page_loop_terminates (fuel : nat) (address api_key : string) (offset : Z) :
  forall (page : Z) (txns : list (list Txn)) (s : fetcher_state World),
    0 < offset ->
    10000 / offset + 1 - page <= Z.of_nat fuel ->
    fst (paging fuel address api_key offset page txns s) <> OutOfFuel.
Proof.
  induction fuel as [|fuel IH]; intros page txns s Hpos Hfuel.
  - simpl. destruct (Z.leb_spec (page * offset) 10000) as [Hcap|Hcap]; [|discriminate].
    exfalso.
    assert (10000 < (10000 / offset + 1) * offset).
    { pose proof (Z.mul_succ_div_gt 10000 offset Hpos). lia. }
    assert ((10000 / offset + 1) * offset <= page * offset)
      by (apply Z.mul_le_mono_nonneg_r; lia).
    lia.
  - rewrite page_loop_step.
    destruct (page * offset <=? 10000); [|discriminate].
    destruct (get_txlist (api_world s) (txlist_query address api_key offset page))
      as [response w'].
    destruct (negb (String.eqb (status response) "1")); [discriminate|].
    destruct (frame_of_result Txn (result response)); [discriminate|].
    apply IH; [assumption | lia].
Qed.

(** Over all addresses, the requests go out in the order of the
    addresses, each within the cap. *)
Lemma for_each_address_requests (fuel : nat) (api_key : string) (offset : Z)
      (addresses : list string) :
  forall (acc : gmap string (list Txn)) (s s' : fetcher_state World)
         (out : outcome (gmap string (list Txn))),
    each_address fuel api_key offset addresses acc s = (out, s') ->
    exists new : list txlist_request,
      issued s' = issued s ++ new
      /\ Forall (fun rq => req_page rq * offset <= 10000 /\ In (req_address rq) addresses) new
      /\ (offset = 5000 -> (List.length new <= 2 * List.length addresses)%nat).
Proof.
  induction addresses as [|address rest IH]; intros acc s s' out Hrun.
  - inversion Hrun; subst. exists []. rewrite app_nil_r.
    split; [reflexivity|]. split; [constructor | simpl; lia].
  - cbn [for_each_address] in Hrun. unfold bind at 1 in Hrun.
    destruct (paging fuel address api_key offset 1 [] s) as [o1 s1] eqn:E1.
    apply page_loop_requests in E1 as (n & Hlog & Hcap).
    set (first := map (txlist_query address api_key offset) (pages_from 1 n)) in *.
    assert (Hlen : offset = 5000 -> (List.length first <= 2)%nat).
    { intros ->. unfold first. rewrite List.length_map, pages_from_length.
      destruct n as [|n]; [lia|].
      specialize (Hcap (1 + Z.of_nat n)). rewrite pages_from_In in Hcap. lia. }
    assert (Hfirst : Forall (fun rq => req_page rq * offset <= 10000
                                       /\ In (req_address rq) (address :: rest)) first).
    { apply List.Forall_forall. intros rq Hrq. apply in_map_iff in Hrq as (p & <- & Hp).
      simpl. auto. }
    assert (Hstop : exists new : list txlist_request,
               issued s1 = issued s ++ new
               /\ Forall (fun rq => req_page rq * offset <= 10000
                                    /\ In (req_address rq) (address :: rest)) new
               /\ (offset = 5000 ->
                   (List.length new <= 2 * List.length (address :: rest))%nat)).
    { exists first. split; [exact Hlog|]. split; [exact Hfirst|].
      intros H5. specialize (Hlen H5). simpl. lia. }
    destruct o1 as [txns|e|]; try (inversion Hrun; subst; exact Hstop).
    unfold bind, lift in Hrun. destruct (pd_concat txns) as [e|table].
    + inversion Hrun; subst. exact Hstop.
    + apply IH in Hrun as (new & Hlog' & Hall & Hnew).
      exists (first ++ new).
      split; [rewrite Hlog', Hlog, <- app_assoc; reflexivity|]. split.
      * apply List.Forall_app. split; [exact Hfirst|].
        eapply List.Forall_impl; [|exact Hall]. simpl. intros rq [? ?]. auto.
      * intros H5. specialize (Hlen H5). specialize (Hnew H5).
        rewrite List.length_app. simpl. lia.
Qed.

(** Without a positive page size the cap never bites: at offset 0 the
    loop goes on for as long as the endpoint reports success. *)
Lemma page_loop_zero_offset (fuel : nat) (address api_key : string) :
  forall (page : Z) (txns : list (list Txn)) (s : fetcher_state World),
    (forall w rq, exists records w',
        get_txlist w rq = (Build_api_response "1" "OK" (inl records), w')) ->
    fst (paging fuel address api_key 0 page txns s) = OutOfFuel.
Proof.
  induction fuel as [|fuel IH]; intros page txns s Hok.
  - simpl. rewrite Z.mul_0_r. reflexivity.
  - rewrite page_loop_step, Z.mul_0_r. cbn [Z.leb Z.compare].
    destruct (Hok (api_world s) (txlist_query address api_key 0 page)) as (records & w' & ->).
    cbn [status result negb String.eqb Ascii.eqb Bool.eqb frame_of_result].
    apply IH, Hok.
Qed.

(** C2. Transaction Fetcher hard-stop: the paging of one address asks for
    pages 1, 2, ... in turn and for page p only when p * offset is at most
    10000, whatever the statuses; with page size 5000 that is at most two
    requests; with any positive page size it is at most 10000 / offset
    requests, after which the loop has ended. *)
Theorem fetcher_hard_stop
        (fuel : nat) (address api_key : string) (offset : Z)
        (s s' : fetcher_state World) (out : outcome (list (list Txn))) :
  paging fuel address api_key offset 1 [] s = (out, s') ->
  exists n : nat,
    issued s' = issued s ++ map (txlist_query address api_key offset) (pages_from 1 n)
    /\ (forall p, In p (pages_from 1 n) -> p * offset <= 10000)
    /\ (offset = 5000 -> (n <= 2)%nat)
    /\ (0 < offset ->
        Z.of_nat n <= 10000 / offset
        /\ (10000 / offset <= Z.of_nat fuel -> out <> OutOfFuel)).
Proof.
  intros Hrun.
  destruct (page_loop_requests _ _ _ _ _ _ _ _ _ Hrun) as (n & Hlog & Hcap).
  assert (Hlast : n <> O -> Z.of_nat n * offset <= 10000).
  { intros Hn. apply Hcap, pages_from_In. lia. }
  exists n. split; [exact Hlog|]. split; [exact Hcap|]. split.
  - intros ->. destruct n as [|n]; [lia|]. specialize (Hlast ltac:(discriminate)). lia.
  - intros Hpos. split.
    + destruct n as [|n].
      * apply Z.div_pos; lia.
      * apply Z.div_le_lower_bound; [assumption|].
        specialize (Hlast ltac:(discriminate)). lia.
    + intros Hfuel.
      pose proof (page_loop_terminates fuel address api_key offset 1 [] s Hpos) as Hend.
      rewrite Hrun in Hend. apply Hend. lia.
Qed.

(** C1, as the code has it.  When the first request for an address comes
    back with a status other than "1", the paging of that address stops
    after that one request, as the claim says; but the list of pages is
    then empty and its concatenation raises: no table is recorded for the
    address and the addresses after it are never asked for. *)
Theorem fetcher_soft_stop_on_first_page_raises
        (fuel : nat) (address api_key : string) (rest : list string) (offset : Z)
        (acc : gmap string (list Txn)) (s : fetcher_state World)
        (response : api_response Txn) (w' : World) :
  1 * offset <= 10000 ->
  get_txlist (api_world s) (txlist_query address api_key offset 1) = (response, w') ->
  status response <> "1" ->
  each_address (S fuel) api_key offset (address :: rest) acc s
  = (Raised NoObjectsToConcatenate,
     Build_fetcher_state w' (issued s ++ [txlist_query address api_key offset 1])).
Proof.
  intros Hcap Hget Hstatus. cbn [for_each_address]. unfold bind at 1.
  rewrite page_loop_step.
  destruct (Z.leb_spec (1 * offset) 10000); [|lia].
  rewrite Hget. apply String.eqb_neq in Hstatus. rewrite Hstatus. reflexivity.
Qed.

End FetcherFacts.

Lemma fetcher_hard_stop_witness :
  exists n : nat,
    [txlist_query "0xA" "key" 5000 1; txlist_query "0xA" "key" 5000 2]
    = ([] ++ map (txlist_query "0xA" "key" 5000) (pages_from 1 n))%list
    /\ (n <= 2)%nat.
Proof.
  assert (E : page_loop unit string working_api 7 "0xA" "key" 5000 1 []
                        (Build_fetcher_state tt [])
              = (Returned [["0xfeed"]; ["0xfeed"]],
                 Build_fetcher_state tt
                   [txlist_query "0xA" "key" 5000 1; txlist_query "0xA" "key" 5000 2]))
    by (vm_compute; reflexivity).
  destruct (fetcher_hard_stop unit string working_api 7 "0xA" "key" 5000 _ _ _ E)
    as (n & Hlog & _ & Hn & _).
  exists n. split; [exact Hlog | exact (Hn eq_refl)].
Defined.

Lemma fetcher_soft_stop_on_first_page_raises_witness :
  get_txn_history unit string failing_api silent_terminal 3
                  ["0xA"; "0xB"] (Some "key") 5000 (Build_fetcher_state tt [])
  = (Raised NoObjectsToConcatenate,
     Build_fetcher_state tt [txlist_query "0xA" "key" 5000 1]).
Proof.
  apply (fetcher_soft_stop_on_first_page_raises unit string failing_api
           2 "0xA" "key" ["0xB"] 5000 ∅ (Build_fetcher_state tt [])
           (Build_api_response "0" "NOTOK" (inr "Max rate limit reached")) tt).
  - lia.
  - reflexivity.
  - discriminate.
Defined.

(** ** Chart scraper *)

Lemma length_append (a b : string) :
  String.length (a ++ b) = (String.length a + String.length b)%nat.
Proof.
  induction a as [|c a IH]; [reflexivity|].
  change (S (String.length (a ++ b)) = S (String.length a + String.length b)).
  now rewrite IH.
Qed.

Lemma append_assoc (a b c : string) : ((a ++ b) ++ c = a ++ (b ++ c))%string.
Proof.
  induction a as [|x a IH]; [reflexivity|].
  change (String x ((a ++ b) ++ c) = String x (a ++ (b ++ c))). now rewrite IH.
Qed.

Lemma substring_skip (a b : string) (m : nat) :
  substring (String.length a) m (a ++ b) = substring 0 m b.
Proof.
  induction a as [|c a IH]; [reflexivity|].
  change (substring (String.length a) m (a ++ b) = substring 0 m b). exact IH.
Qed.

Lemma substring_take (a b : string) :
  substring 0 (String.length a) (a ++ b) = a.
Proof.
  induction a as [|c a IH].
  - destruct b; reflexivity.
  - change (String c (substring 0 (String.length a) (a ++ b)) = String c a).
    now rewrite IH.
Qed.

Lemma all_chars_append (p : ascii -> bool) (a b : string) :
  all_chars p (a ++ b) = all_chars p a && all_chars p b.
Proof.
  induction a as [|c a IH]; [reflexivity|].
  change (String c a ++ b)%string with (String c (a ++ b)). simpl.
  rewrite IH. apply andb_assoc.
Qed.

(** A string that does not end with NUL goes through an array unchanged. *)
Lemma np_str_keeps (s : string) : ends_with nul s = false -> np_str s = s.
Proof.
  unfold np_str. induction s as [|d rest IH]; [reflexivity|].
  intros H. cbn [PyStr.rstrip]. destruct rest as [|e r].
  - change (Ascii.eqb nul d = false) in H.
    change ((if (if Ascii.eqb d nul then true else false)
             then EmptyString else String d EmptyString) = String d EmptyString).
    rewrite Ascii.eqb_sym, H. reflexivity.
  - change (ends_with nul (String e r) = false) in H.
    rewrite (IH H). reflexivity.
Qed.

Lemma ends_with_all_chars (p : ascii -> bool) (c : ascii) (s : string) :
  all_chars p s = true -> p c = false -> ends_with c s = false.
Proof.
  intros Hs Hc. induction s as [|d rest IH]; [reflexivity|].
  simpl in Hs. apply andb_prop in Hs as [Hd Hrest]. destruct rest as [|e r].
  - change (Ascii.eqb c d = false).
    destruct (Ascii.eqb_spec c d) as [->|]; [congruence | reflexivity].
  - change (ends_with c (String e r) = false). apply IH, Hrest.
Qed.

(** The slices of lines 63 and 64 take a rendered record apart. *)
Lemma parse_render_record (date value : string) :
  String.length date = 10%nat ->
  _parse_bitinfo_graph_record (render_record date value) = np_array2 date value.
Proof.
  intros Hd. unfold _parse_bitinfo_graph_record, slice, render_record.
  assert (Hlen : Z.of_nat (String.length (record_open ++ date ++ record_mid ++ value ++ "]"))
                 = 25 + Z.of_nat (String.length value)).
  { rewrite !length_append, Hd. simpl String.length. lia. }
  rewrite Hlen. unfold slice_index.
  replace (11 <? 0) with false by reflexivity.
  replace (21 <? 0) with false by reflexivity.
  replace (24 <? 0) with false by reflexivity.
  replace (-1 <? 0) with true by reflexivity.
  rewrite !Z.min_l, Z.max_l by lia.
  replace (Z.to_nat 21 - Z.to_nat 11)%nat with (String.length date) by (rewrite Hd; reflexivity).
  replace (Z.to_nat (-1 + (25 + Z.of_nat (String.length value))) - Z.to_nat 24)%nat
    with (String.length value) by lia.
  f_equal.
  - change (Z.to_nat 11) with (String.length record_open).
    rewrite (substring_skip record_open). apply substring_take.
  - replace (Z.to_nat 24)
      with (String.length (record_open ++ date ++ record_mid))
      by (rewrite !length_append, Hd; reflexivity).
    rewrite <- (append_assoc date record_mid).
    rewrite <- (append_assoc record_open (date ++ record_mid)).
    rewrite (substring_skip (record_open ++ date ++ record_mid)). apply substring_take.
Qed.

Lemma match_literal_app (lit rest : string) : match_literal lit (lit ++ rest) = Some rest.
Proof.
  induction lit as [|c lit IH]; [reflexivity|].
  change (match_literal (String c lit) (String c (lit ++ rest)) = Some rest).
  simpl. rewrite Ascii.eqb_refl. exact IH.
Qed.

Lemma match_literal_inv (lit : string) :
  forall s rest, match_literal lit s = Some rest -> s = (lit ++ rest)%string.
Proof.
  induction lit as [|c lit IH]; intros s rest H.
  - simpl in H. inversion H. reflexivity.
  - destruct s as [|d s]; [discriminate|]. simpl in H.
    destruct (Ascii.eqb_spec c d) as [->|]; [|discriminate].
    apply IH in H. subst s. reflexivity.
Qed.

Lemma match_digits_inv (n : nat) :
  forall s ds rest,
    match_digits n s = Some (ds, rest) ->
    s = (ds ++ rest)%string /\ String.length ds = n /\ all_chars PyStr.is_digit ds = true.
Proof.
  induction n as [|n IH]; intros s ds rest H.
  - simpl in H. inversion H. auto.
  - destruct s as [|c s]; [discriminate|]. simpl in H.
    destruct (PyStr.is_digit c) eqn:Hc; [|discriminate].
    destruct (match_digits n s) as [[ds' tl]|] eqn:E; [|discriminate].
    inversion H; subst. apply IH in E as (-> & Hlen & Hall).
    simpl. rewrite Hc, Hall, Hlen. auto.
Qed.

Lemma match_digits_app (ds rest : string) :
  all_chars PyStr.is_digit ds = true ->
  match_digits (String.length ds) (ds ++ rest) = Some (ds, rest).
Proof.
  induction ds as [|c ds IH]; [reflexivity|].
  simpl all_chars. intros H. apply andb_prop in H as [Hc Hds].
  change (match_digits (S (String.length ds)) (String c (ds ++ rest))
          = Some (String c ds, rest)).
  simpl. rewrite Hc, (IH Hds). reflexivity.
Qed.

Lemma match_date_inv (s date rest : string) :
  match_date s = Some (date, rest) ->
  s = (date ++ rest)%string /\ String.length date = 10%nat /\ date_shaped date = true.
Proof.
  unfold match_date. intros H.
  destruct (match_digits 4 s) as [[y [|c1 s1]]|] eqn:Ey; try discriminate.
  destruct (Ascii.eqb_spec c1 "/") as [->|Hc1].
  2:{ destruct c1 as [[] [] [] [] [] [] [] []]; try discriminate; congruence. }
  destruct (match_digits 2 s1) as [[m [|c2 s2]]|] eqn:Em; try discriminate.
  destruct (Ascii.eqb_spec c2 "/") as [->|Hc2].
  2:{ destruct c2 as [[] [] [] [] [] [] [] []]; try discriminate; congruence. }
  destruct (match_digits 2 s2) as [[d tl]|] eqn:Ed; [|discriminate].
  inversion H; subst.
  apply match_digits_inv in Ey as (-> & Hy & Hya).
  apply match_digits_inv in Em as (-> & Hm & Hma).
  apply match_digits_inv in Ed as (-> & Hd & Hda).
  split; [|split].
  - rewrite !append_assoc. reflexivity.
  - rewrite !length_append, Hy, Hm, Hd. reflexivity.
  - unfold date_shaped, match_date.
    rewrite <- Hy at 1. rewrite match_digits_app by assumption.
    change ("/" ++ m ++ "/" ++ d)%string with (String "/" (m ++ "/" ++ d)).
    cbv iota beta.
    rewrite <- Hm at 1. rewrite match_digits_app by assumption.
    change ("/" ++ d)%string with (String "/" d). cbv iota beta.
    rewrite <- (append_empty_r d) at 1. rewrite <- Hd at 1.
    rewrite match_digits_app by assumption. reflexivity.
Qed.

Lemma match_date_app (date rest : string) :
  date_shaped date = true -> match_date (date ++ rest) = Some (date, rest).
Proof.
  unfold date_shaped. intros H.
  destruct (match_date date) as [[date' [|c tl]]|] eqn:E; try discriminate.
  clear H. unfold match_date in E.
  destruct (match_digits 4 date) as [[y [|c1 s1]]|] eqn:Ey; try discriminate.
  destruct (Ascii.eqb_spec c1 "/") as [->|Hc1].
  2:{ destruct c1 as [[] [] [] [] [] [] [] []]; try discriminate; congruence. }
  destruct (match_digits 2 s1) as [[m [|c2 s2]]|] eqn:Em; try discriminate.
  destruct (Ascii.eqb_spec c2 "/") as [->|Hc2].
  2:{ destruct c2 as [[] [] [] [] [] [] [] []]; try discriminate; congruence. }
  destruct (match_digits 2 s2) as [[d tl]|] eqn:Ed; [|discriminate].
  inversion E; subst.
  apply match_digits_inv in Ey as (-> & Hy & Hya).
  apply match_digits_inv in Em as (-> & Hm & Hma).
  apply match_digits_inv in Ed as (Hs2 & Hd & Hda).
  rewrite append_empty_r in Hs2. subst s2.
  unfold match_date. rewrite !append_assoc.
  rewrite <- Hy at 1. rewrite match_digits_app by assumption.
  change (String "/" (m ++ String "/" d) ++ rest)%string
    with (String "/" ((m ++ String "/" d) ++ rest)). cbv iota beta.
  rewrite append_assoc.
  rewrite <- Hm at 1. rewrite match_digits_app by assumption.
  change (String "/" d ++ rest)%string with (String "/" (d ++ rest)). cbv iota beta.
  rewrite <- Hd at 1. rewrite match_digits_app by assumption.
  reflexivity.
Qed.

Lemma span_inv (p : ascii -> bool) (s : string) :
  forall run tl,
    span p s = (run, tl) ->
    s = (run ++ tl)%string /\ all_chars p run = true.
Proof.
  induction s as [|c s IH]; intros run tl H; simpl in H.
  - inversion H. auto.
  - destruct (p c) eqn:Hc.
    + destruct (span p s) as [run' tl'] eqn:E. inversion H; subst.
      destruct (IH run' tl eq_refl) as [-> Hall]. simpl. rewrite Hc, Hall. auto.
    + inversion H. auto.
Qed.

Lemma span_app (p : ascii -> bool) (run : string) (c : ascii) (tl : string) :
  all_chars p run = true -> p c = false ->
  span p (run ++ String c tl) = (run, String c tl).
Proof.
  intros Hrun Hc. induction run as [|d run IH]; simpl.
  - rewrite Hc. reflexivity.
  - simpl in Hrun. apply andb_prop in Hrun as [Hd Hrun].
    rewrite Hd, (IH Hrun). reflexivity.
Qed.

(** What the pattern matches is a rendered record at the head of the text. *)
Lemma match_record_inv (s m : string) :
  match_record s = Some m ->
  exists date value rest,
    m = render_record date value
    /\ s = (m ++ rest)%string
    /\ String.length date = 10%nat
    /\ date_shaped date = true
    /\ all_chars is_word value = true.
Proof.
  unfold match_record. intros H.
  destruct (match_literal record_open s) as [s1|] eqn:E1; [|discriminate].
  destruct (match_date s1) as [[date s2]|] eqn:E2; [|discriminate].
  destruct (match_literal record_mid s2) as [s3|] eqn:E3; [|discriminate].
  destruct (span is_word s3) as [value s4] eqn:E4.
  destruct s4 as [|c rest]; [discriminate|].
  destruct (Ascii.eqb_spec c "]") as [->|Hc].
  2:{ destruct c as [[] [] [] [] [] [] [] []]; try discriminate; congruence. }
  inversion H; subst m.
  apply match_literal_inv in E1. apply match_date_inv in E2 as (E2 & Hlen & Hshape).
  apply match_literal_inv in E3. apply span_inv in E4 as (E4 & Hword).
  exists date, value, rest. unfold render_record.
  split; [reflexivity|]. split; [|auto].
  subst s s1 s2 s3. rewrite !append_assoc. reflexivity.
Qed.

Lemma match_record_render (date value rest : string) :
  date_shaped date = true -> all_chars is_word value = true ->
  match_record (render_record date value ++ rest) = Some (render_record date value).
Proof.
  intros Hd Hv. unfold match_record, render_record.
  rewrite !append_assoc. rewrite match_literal_app.
  rewrite match_date_app by assumption.
  rewrite match_literal_app.
  change ("]" ++ rest)%string with (String "]" rest).
  rewrite span_app by (assumption || reflexivity).
  reflexivity.
Qed.

Lemma match_record_head (c : ascii) (t m : string) :
  match_record (String c t) = Some m -> c = "["%char /\ starts_with "n" t = true.
Proof.
  unfold match_record. intros H.
  destruct (match_literal record_open (String c t)) as [s1|] eqn:E; [|discriminate].
  clear H.
  assert (Ho : exists tail, record_open = String "[" (String "n" tail))
    by (eexists; reflexivity).
  destruct Ho as [tail Ho]. rewrite Ho in E.
  change (match_literal (String "[" (String "n" tail)) (String c t))
    with (if Ascii.eqb "[" c then match_literal (String "n" tail) t else None) in E.
  destruct (Ascii.eqb_spec "[" c) as [<-|]; [|discriminate].
  split; [reflexivity|]. destruct t as [|d t]; [discriminate|].
  change (match_literal (String "n" tail) (String d t))
    with (if Ascii.eqb "n" d then match_literal tail t else None) in E.
  unfold starts_with. destruct (Ascii.eqb "n" d); [reflexivity | discriminate].
Qed.

Lemma findall_skip (a rest : string) :
  findall_from (String.length a) (a ++ rest) = findall_from 0 rest.
Proof.
  induction a as [|c a IH]; [reflexivity|].
  change (findall_from (String.length a) (a ++ rest) = findall_from 0 rest). exact IH.
Qed.

Lemma findall_quiet (sep rest : string) :
  quiet sep = true -> starts_with "n" rest = false ->
  findall_from 0 (sep ++ rest) = findall_from 0 rest.
Proof.
  intros Hq Hrest. induction sep as [|c sep IH]; [reflexivity|].
  simpl in Hq. apply andb_prop in Hq as [Hc Hq].
  change (String c sep ++ rest)%string with (String c (sep ++ rest)).
  cbn [findall_from].
  destruct (match_record (String c (sep ++ rest))) as [m|] eqn:E; [|auto].
  exfalso. apply match_record_head in E as [-> Hn].
  rewrite Ascii.eqb_refl in Hc. simpl in Hc.
  destruct sep as [|d sep].
  - change ("" ++ rest)%string with rest in Hn. congruence.
  - change (starts_with "n" (String d sep ++ rest)) with (starts_with "n" (String d sep)) in Hn.
    rewrite Hn in Hc. discriminate.
Qed.

Lemma findall_record (date value rest : string) :
  date_shaped date = true -> all_chars is_word value = true ->
  findall_from 0 (render_record date value ++ rest)
  = render_record date value :: findall_from 0 rest.
Proof.
  intros Hd Hv.
  pose proof (match_record_render date value rest Hd Hv) as Hm.
  remember (render_record date value) as m eqn:Em.
  destruct m as [|c m]; [discriminate Em|].
  change (String c m ++ rest)%string with (String c (m ++ rest)) in *.
  cbn [findall_from]. rewrite Hm. f_equal.
  replace (String.length (String c m) - 1)%nat with (String.length m)
    by (simpl String.length; lia).
  apply findall_skip.
Qed.

Lemma chart_script_head (recs : list (string * string * string)) :
  starts_with "n" (chart_script recs) = false.
Proof. destruct recs as [|[[d v] a] recs]; reflexivity. Qed.

Lemma findall_chart_script (recs : list (string * string * string)) :
  Forall (fun '(date, value, after) =>
            date_shaped date = true /\ all_chars is_word value = true
            /\ quiet after = true) recs ->
  findall_from 0 (chart_script recs)
  = map (fun '(date, value, _) => render_record date value) recs.
Proof.
  induction 1 as [|[[date value] after] recs (Hd & Hv & Hq) _ IH]; [reflexivity|].
  cbn [chart_script map]. rewrite findall_record by assumption.
  rewrite findall_quiet by (assumption || apply chart_script_head).
  rewrite IH. reflexivity.
Qed.

Lemma fold_left_snoc {A B} (f : A -> B) (xs : list A) (acc : list B) :
  fold_left (fun rows x => (rows ++ [f x])%list) xs acc = (acc ++ map f xs)%list.
Proof.
  revert acc. induction xs as [|x xs IH]; intros acc; simpl.
  - rewrite app_nil_r. reflexivity.
  - rewrite IH, <- app_assoc. reflexivity.
Qed.

Lemma bitinfo_transactions_map (script_text : string) :
  bitinfo_transactions script_text
  = map _parse_bitinfo_graph_record (findall script_text).
Proof.
  unfold bitinfo_transactions.
  exact (fold_left_snoc _parse_bitinfo_graph_record (findall script_text) []).
Qed.

Lemma findall_from_records (s : string) :
  forall skip,
    Forall (fun m => exists date value,
                m = render_record date value
                /\ String.length date = 10%nat
                /\ date_shaped date = true
                /\ all_chars is_word value = true)
           (findall_from skip s).
Proof.
  induction s as [|c s IH]; intros skip; [constructor|].
  cbn [findall_from]. destruct skip as [|k]; [|apply IH].
  destruct (match_record (String c s)) as [m|] eqn:E; [|apply IH].
  constructor; [|apply IH].
  apply match_record_inv in E as (date & value & rest & Hm & _ & Hlen & Hd & Hv).
  exists date, value. auto.
Qed.

Lemma match_date_chars (s date rest : string) :
  match_date s = Some (date, rest) ->
  all_chars (fun c => PyStr.is_digit c || Ascii.eqb c "/") date = true.
Proof.
  unfold match_date. intros H.
  destruct (match_digits 4 s) as [[y [|c1 s1]]|] eqn:Ey; try discriminate.
  destruct (Ascii.eqb_spec c1 "/") as [->|Hc1].
  2:{ destruct c1 as [[] [] [] [] [] [] [] []]; try discriminate; congruence. }
  destruct (match_digits 2 s1) as [[m [|c2 s2]]|] eqn:Em; try discriminate.
  destruct (Ascii.eqb_spec c2 "/") as [->|Hc2].
  2:{ destruct c2 as [[] [] [] [] [] [] [] []]; try discriminate; congruence. }
  destruct (match_digits 2 s2) as [[d tl]|] eqn:Ed; [|discriminate].
  inversion H; subst.
  apply match_digits_inv in Ey as (_ & _ & Hya).
  apply match_digits_inv in Em as (_ & _ & Hma).
  apply match_digits_inv in Ed as (_ & _ & Hda).
  assert (Hd : forall ds, all_chars PyStr.is_digit ds = true ->
                          all_chars (fun c => PyStr.is_digit c || Ascii.eqb c "/") ds = true).
  { intros ds. apply all_chars_impl. intros c ->. reflexivity. }
  rewrite !all_chars_append, (Hd y Hya), (Hd m Hma), (Hd d Hda). reflexivity.
Qed.

Lemma date_shaped_clean (date : string) :
  date_shaped date = true ->
  String.length date = 10%nat /\ ends_with nul date = false.
Proof.
  unfold date_shaped. intros H.
  destruct (match_date date) as [[d' [|]]|] eqn:E; try discriminate.
  pose proof (match_date_chars _ _ _ E) as Hchars.
  apply match_date_inv in E as (E & Hlen & _).
  rewrite append_empty_r in E. subst d'. split; [exact Hlen|].
  eapply ends_with_all_chars; [exact Hchars | reflexivity].
Qed.

(** A matched record goes through the array unchanged: a date and a
    value of word characters end with no NUL. *)
Lemma parse_render_record_clean (date value : string) :
  date_shaped date = true -> all_chars is_word value = true ->
  _parse_bitinfo_graph_record (render_record date value) = (date, value).
Proof.
  intros Hd Hv. apply date_shaped_clean in Hd as [Hlen Hend].
  rewrite parse_render_record by assumption. unfold np_array2.
  rewrite (np_str_keeps date Hend), (np_str_keeps value); [reflexivity|].
  eapply ends_with_all_chars; [exact Hv | reflexivity].
Qed.

(** X1. Round trip of a chart record: for a date of ten characters and
    any value, [_parse_bitinfo_graph_record] gives back the date and the
    value the record was written from, each as the array holds it, that
    is without the NUL characters it may end with; when neither ends with
    NUL they come back whole. *)
Theorem parse_bitinfo_record_round_trip (date value : string) :
  String.length date = 10%nat ->
  _parse_bitinfo_graph_record (render_record date value) = (np_str date, np_str value)
  /\ (ends_with nul date = false -> ends_with nul value = false ->
      _parse_bitinfo_graph_record (render_record date value) = (date, value)).
Proof.
  intros Hlen. rewrite parse_render_record by assumption. unfold np_array2.
  split; [reflexivity|].
  intros Hd Hv. rewrite (np_str_keeps date Hd), (np_str_keeps value Hv). reflexivity.
Qed.

Lemma parse_bitinfo_record_round_trip_witness :
  _parse_bitinfo_graph_record (render_record "2019/11/19" "12345")
  = ("2019/11/19", "12345")
  /\ _parse_bitinfo_graph_record (render_record "2019/11/19" (String "5" (String nul "")))
     = ("2019/11/19", "5").
Proof.
  split.
  - apply (proj2 (parse_bitinfo_record_round_trip "2019/11/19" "12345" eq_refl));
      reflexivity.
  - exact (proj1 (parse_bitinfo_record_round_trip
                    "2019/11/19" (String "5" (String nul "")) eq_refl)).
Defined.

(** X2. Whatever the script holds, every row collected by lines 84 to 88
    comes from one match of the pattern, in order, and the row is that
    match taken apart: its date has the shape dddd/dd/dd and its value is
    made of word characters only. *)
Theorem bitinfo_rows_well_formed (script_text : string) :
  Forall2 (fun record row =>
             record = render_record (fst row) (snd row)
             /\ date_shaped (fst row) = true
             /\ all_chars is_word (snd row) = true)
          (findall script_text) (bitinfo_transactions script_text).
Proof.
  rewrite bitinfo_transactions_map. unfold findall.
  pose proof (findall_from_records script_text 0) as H.
  induction H as [|m ms (date & value & -> & Hlen & Hd & Hv) _ IH]; simpl; constructor.
  - rewrite parse_render_record_clean by assumption. simpl. auto.
  - exact IH.
Qed.

(** X3. Round trip of a chart script: when the text before the first
    record and after each record is quiet, the dates have the shape
    dddd/dd/dd and the values are word characters, lines 84 to 88 recover
    the dates and values the script was written from, in order. *)
Theorem bitinfo_script_round_trip (before : string)
        (recs : list (string * string * string)) :
  quiet before = true ->
  Forall (fun '(date, value, after) =>
            date_shaped date = true /\ all_chars is_word value = true
            /\ quiet after = true) recs ->
  bitinfo_transactions (before ++ chart_script recs)
  = map (fun '(date, value, _) => (date, value)) recs.
Proof.
  intros Hq Hrecs. rewrite bitinfo_transactions_map. unfold findall.
  rewrite findall_quiet by (assumption || apply chart_script_head).
  rewrite findall_chart_script by assumption.
  induction Hrecs as [|[[date value] after] recs (Hd & Hv & _) _ IH]; [reflexivity|].
  simpl. rewrite IH. f_equal. apply parse_render_record_clean; assumption.
Qed.

Lemma bitinfo_script_round_trip_witness :
  bitinfo_transactions
    ("d = new Dygraph(el, [" ++
     chart_script [("2019/11/19", "12345", ","); ("2019/11/20", "null", "], {});")])
  = [("2019/11/19", "12345"); ("2019/11/20", "null")].
Proof.
  apply (bitinfo_script_round_trip "d = new Dygraph(el, ["
           [("2019/11/19", "12345", ","); ("2019/11/20", "null", "], {});")]).
  - reflexivity.
  - repeat constructor.
Defined.

(** ** More on the Record Normalizer *)

Lemma replace_append (old : ascii) (new a b : string) :
  PyStr.replace old new (a ++ b) = (PyStr.replace old new a ++ PyStr.replace old new b)%string.
Proof.
  induction a as [|c a IH]; [reflexivity|].
  change (String c a ++ b)%string with (String c (a ++ b)). simpl.
  rewrite IH. destruct (Ascii.eqb c old); [|reflexivity].
  symmetry. apply append_assoc.
Qed.

Lemma replace_absent (old : ascii) (new s : string) :
  all_chars (fun c => negb (Ascii.eqb c old)) s = true -> PyStr.replace old new s = s.
Proof.
  induction s as [|c s IH]; simpl; [reflexivity|].
  intros H. apply andb_prop in H as [Hc Hs].
  destruct (Ascii.eqb c old); [discriminate|]. now rewrite IH.
Qed.

Lemma rstrip_space_keeps (s : string) :
  all_chars (fun c => negb (PyStr.is_space c)) s = true -> PyStr.rstrip_space s = s.
Proof.
  induction s as [|c s IH]; simpl; [reflexivity|].
  intros H. apply andb_prop in H as [Hc Hs]. rewrite (IH Hs).
  destruct s; [|reflexivity].
  destruct (PyStr.is_space c); [discriminate | reflexivity].
Qed.

Lemma drop_underscores_keeps (s : string) :
  forall prev,
    all_chars (fun c => negb (Ascii.eqb c "_")) s = true ->
    Ascii.eqb prev "_" = false ->
    PyFloat.drop_underscores prev s = Some s.
Proof.
  induction s as [|c s IH]; simpl; intros prev H Hprev.
  - rewrite Hprev. reflexivity.
  - apply andb_prop in H as [Hc Hs].
    destruct (Ascii.eqb c "_") eqn:Hu; [discriminate|].
    rewrite Hprev. simpl. rewrite (IH c Hs Hu). reflexivity.
Qed.

Lemma span_digits_app (ds : string) (c : ascii) (tl : string) :
  all_chars PyStr.is_digit ds = true -> PyStr.is_digit c = false ->
  PyStr.span_digits (ds ++ String c tl) = (ds, String c tl).
Proof.
  intros Hds Hc. induction ds as [|d ds IH]; simpl.
  - rewrite Hc. reflexivity.
  - simpl in Hds. apply andb_prop in Hds as [Hd Hds].
    rewrite Hd, (IH Hds). reflexivity.
Qed.

Lemma digit_or_point_plain (c : ascii) :
  PyStr.is_digit c || Ascii.eqb c "." = true ->
  negb (PyStr.is_space c) = true /\ negb (Ascii.eqb c "_") = true
  /\ negb (Ascii.eqb c ",") = true /\ negb (PyStr.mem c " Ether") = true.
Proof.
  destruct c as [[] [] [] [] [] [] [] []]; intros H; try discriminate H;
    repeat split; reflexivity.
Qed.

(** [float] of digits, a point and more digits. *)
Lemma of_string_fraction (ip fp : string) :
  all_chars PyStr.is_digit ip = true -> ip <> "" ->
  all_chars PyStr.is_digit fp = true ->
  PyFloat.of_string (ip ++ "." ++ fp)
  = Some (PyFloat.of_decimal false (PyStr.digits_value (ip ++ fp))
                             (- Z.of_nat (String.length fp))).
Proof.
  intros Hip Hne Hfp.
  assert (Hall : all_chars (fun c => PyStr.is_digit c || Ascii.eqb c ".") (ip ++ "." ++ fp) = true).
  { rewrite !all_chars_append.
    rewrite (all_chars_impl PyStr.is_digit _ ip), (all_chars_impl PyStr.is_digit _ fp);
      try assumption; try reflexivity; intros c ->; reflexivity. }
  unfold PyFloat.of_string.
  destruct ip as [|c ip]; [congruence|].
  change (String c ip ++ "." ++ fp)%string with (String c (ip ++ "." ++ fp)) in *.
  simpl in Hip. apply andb_prop in Hip as [Hc Hip].
  cbn [PyStr.lstrip_space]. rewrite (digit_not_space c Hc).
  rewrite rstrip_space_keeps
    by (revert Hall; apply all_chars_impl; intros x Hx; apply digit_or_point_plain, Hx).
  rewrite drop_underscores_keeps;
    [| revert Hall; apply all_chars_impl; intros x Hx; apply digit_or_point_plain, Hx
     | reflexivity].
  assert (Hsign : PyFloat.split_sign (String c (ip ++ "." ++ fp))
                  = (false, String c (ip ++ "." ++ fp))).
  { clear -Hc. destruct c as [[] [] [] [] [] [] [] []]; try discriminate Hc; reflexivity. }
  rewrite Hsign. unfold PyFloat.parse_decimal.
  change (String c (ip ++ "." ++ fp)) with (String c ip ++ String "." fp)%string.
  rewrite span_digits_app; [| simpl; rewrite Hc, Hip; reflexivity | reflexivity].
  cbv beta iota. rewrite span_digits_all by assumption. cbv beta iota.
  change (String c ip ++ fp)%string with (String c (ip ++ fp)).
  cbn [PyFloat.parse_exponent]. cbv beta iota.
  rewrite Z.sub_0_l. reflexivity.
Qed.

(** X4. A balance with a decimal fraction: for comma-grouped digits N and
    digits F, the cell "N.F Ether" normalizes to the float nearest to the
    decimal number N.F, that is to the integer the digits of N and F
    spell, scaled by ten to the minus the length of F. *)
Theorem normalizer_decimal_balance (n fp : string) :
  grouped_digits n ->
  all_chars PyStr.is_digit fp = true ->
  balance_of_cell (Some (n ++ "." ++ fp ++ " Ether")%string)
  = inr (PyFloat.of_decimal false
           (PyStr.digits_value (PyStr.replace "," "" n ++ fp))
           (- Z.of_nat (String.length fp))).
Proof.
  intros [Hn Hne] Hfp. unfold balance_of_cell.
  assert (Hpoint : forall p : ascii -> bool, p "."%char = true ->
                     (forall c, PyStr.is_digit c = true -> p c = true) ->
                     all_chars p ("." ++ fp) = true).
  { intros p Hp Hd. change ("." ++ fp)%string with (String "." fp).
    simpl. rewrite Hp. revert Hfp. apply all_chars_impl, Hd. }
  replace (n ++ "." ++ fp ++ " Ether")%string
    with ("" ++ (n ++ "." ++ fp) ++ " Ether")%string
    by (rewrite !append_assoc; reflexivity).
  rewrite strip_core; try reflexivity.
  - rewrite replace_append.
    rewrite (replace_absent _ _ ("." ++ fp)).
    + rewrite of_string_fraction; [reflexivity | | assumption | assumption].
      apply replace_commas_digits, Hn.
    + apply Hpoint; [reflexivity|].
      intros c Hc. apply digit_or_point_plain. rewrite Hc. reflexivity.
  - rewrite all_chars_append. apply andb_true_intro. split.
    + revert Hn. apply all_chars_impl, digit_or_comma_outside_label.
    + apply Hpoint; [reflexivity|].
      intros c Hc. apply digit_or_point_plain. rewrite Hc. reflexivity.
Qed.

Lemma normalizer_decimal_balance_witness :
  balance_of_cell (Some "1,234.5 Ether") = inr (S754_finite false 5429388417957888 (-42))
  /\ 5429388417957888 * 10 = 12345 * 2 ^ 42.
Proof.
  split; [|reflexivity].
  assert (G : grouped_digits "1,234") by (split; [reflexivity | discriminate]).
  exact (normalizer_decimal_balance "1,234" "5" G eq_refl).
Defined.

(** X5. A balance cell that holds nothing but characters of the unit
    label, the empty cell included, leaves nothing to parse and raises. *)
Theorem normalizer_rejects_bare_label (cell : string) :
  all_chars (fun c => PyStr.mem c " Ether") cell = true ->
  balance_of_cell (Some cell) = inl NotNumeric.
Proof.
  intros H. unfold balance_of_cell.
  replace cell with (cell ++ "" ++ "")%string by apply append_empty_r.
  rewrite strip_core by (assumption || reflexivity). reflexivity.
Qed.

Lemma normalizer_rejects_bare_label_witness :
  balance_of_cell (Some " Ether") = inl NotNumeric.
Proof. apply (normalizer_rejects_bare_label " Ether"). reflexivity. Defined.

(** ** More on the Exchange Table Builder *)

Lemma width_member (data : list row) (r : row) :
  In r data -> (List.length r <= width data)%nat.
Proof.
  intros Hin. pose proof (width_bounds data) as H.
  rewrite List.Forall_forall in H. apply H, Hin.
Qed.

(** X6. Malformed rows are fatal to the page: if a row after the first has
    other than four cells no table is returned, and if one has more than
    four the frame itself is refused. *)
Theorem builder_rejects_malformed_rows (rows : list row) :
  (List.Exists (fun r => List.length r <> 4%nat) (tl rows) ->
   exists e, _format_exchange_data rows = inl e)
  /\ (List.Exists (fun r => (4 < List.length r)%nat) (tl rows) ->
      _format_exchange_data rows = inl ShapeMismatch).
Proof.
  split.
  - intros Hex. destruct (_format_exchange_data rows) as [e|table] eqn:E; [eauto|].
    exfalso. apply format_exchange_data_spec in E.
    apply List.Exists_exists in Hex as (r & Hin & Hlen).
    clear -E Hin Hlen. induction E as [|r' e data table Hm _ IH]; [contradiction|].
    destruct Hin as [->|Hin]; [|auto].
    apply row_matches_length in Hm. contradiction.
  - intros Hex. apply List.Exists_exists in Hex as (r & Hin & Hlen).
    unfold _format_exchange_data.
    pose proof (width_member _ _ Hin) as Hw.
    destruct (tl rows) as [|r0 data] eqn:E; [contradiction|].
    unfold frame_ok. destruct (Nat.eqb_spec (width (r0 :: data)) 4); [lia | reflexivity].
Qed.

Lemma builder_rejects_malformed_rows_witness :
  (exists e, _format_exchange_data [[]; ["0x01"; "Exchange"; "1 Ether"]] = inl e)
  /\ _format_exchange_data [[]; ["0x01"; "Exchange"; "1 Ether"; "2"; "extra"]]
     = inl ShapeMismatch.
Proof.
  split.
  - apply (proj1 (builder_rejects_malformed_rows [[]; ["0x01"; "Exchange"; "1 Ether"]])).
    constructor. simpl. lia.
  - apply (proj2 (builder_rejects_malformed_rows
                    [[]; ["0x01"; "Exchange"; "1 Ether"; "2"; "extra"]])).
    constructor. simpl. lia.
Defined.

(** ** More on the Exchange Scraper *)

Section ScraperEdges.

Variable World : Type.
Variable get_listing : World -> Z -> Z -> option (list row) * World.

Local Open Scope list_scope.

Abbreviation loop' := (scrape_loop World get_listing).
Abbreviation scrape' := (scrape_exchanges World get_listing).
Abbreviation served' := (serves World get_listing).

(** The loop runs through pages that hold data and format. *)
Lemma scrape_loop_prefix (full : list (list row)) :
  forall (frags : list (list exchange)) (w w1 : World) (p : Z)
         (acc : list (list exchange)) (log : list Z) (fuel : nat),
    served' w p full w1 ->
    Forall (fun trs => (2 < List.length trs)%nat) full ->
    Forall2 (fun trs fragment => _format_exchange_data (stripped trs) = inr fragment) full frags ->
    loop' (List.length full + fuel) 100 p acc (Build_scraper_state w log)
    = loop' fuel 100 (p + Z.of_nat (List.length full)) (acc ++ frags)
            (Build_scraper_state w1 (log ++ pages_from p (List.length full))).
Proof.
  induction full as [|trs full IH]; intros frags w w1 p acc log fuel Hs Hfull Hfrags.
  - inversion Hs; subst. inversion Hfrags; subst. simpl.
    rewrite Z.add_0_r, !app_nil_r. reflexivity.
  - inversion Hs as [|? ? ? w2 ? ? Hget Hrest]; subst.
    inversion Hfull as [|? ? Hlen Hfull']; subst.
    inversion Hfrags as [|? fragment ? frags' Hfmt Hfrags']; subst.
    change (List.length (trs :: full) + fuel)%nat with (S (List.length full + fuel)).
    rewrite scrape_loop_step. cbn [listing_world requested]. rewrite Hget.
    destruct (Nat.leb_spec (List.length trs) 2); [lia|]. rewrite Hfmt.
    rewrite (IH frags' w2 w1 (p + 1) (acc ++ [fragment]) (log ++ [p]) fuel) by assumption.
    replace (p + 1 + Z.of_nat (List.length full))
      with (p + Z.of_nat (List.length (trs :: full)))
      by (simpl List.length; lia).
    simpl pages_from. rewrite <- !app_assoc. reflexivity.
Qed.

(** X7. A failure on a listing page is fatal to the whole scrape: after
    any number of good pages, a page without a table, or a page of more
    than two rows that the builder refuses, makes the scraper raise that
    error; the records of the good pages are lost and no further page is
    asked for. *)
Theorem scraper_aborts_on_bad_page
        (full : list (list row)) (frags : list (list exchange))
        (page : option (list row)) (e : exn)
        (w w1 w' : World) (log : list Z) (fuel : nat) :
  served' w 1 full w1 ->
  Forall (fun trs => (2 < List.length trs)%nat) full ->
  Forall2 (fun trs fragment => _format_exchange_data (stripped trs) = inr fragment) full frags ->
  get_listing w1 (1 + Z.of_nat (List.length full)) 100 = (page, w') ->
  match page with
  | None => e = NoTable
  | Some bad => (2 < List.length bad)%nat /\ _format_exchange_data (stripped bad) = inl e
  end ->
  scrape' (List.length full + S fuel) (Build_scraper_state w log)
  = (Raised e, Build_scraper_state w' (log ++ pages_from 1 (S (List.length full)))).
Proof.
  intros Hs Hfull Hfrags Hget Hbad. unfold scrape_exchanges, bind.
  rewrite (scrape_loop_prefix full frags w w1 1 [] log (S fuel)) by assumption.
  rewrite scrape_loop_step. cbn [listing_world requested]. rewrite Hget.
  rewrite pages_from_snoc, app_assoc.
  destruct page as [bad|].
  - destruct Hbad as [Hlen Hfmt].
    destruct (Nat.leb_spec (List.length bad) 2); [lia|]. rewrite Hfmt. reflexivity.
  - subst e. reflexivity.
Qed.

(** X8. The loop has no bound of its own: against a site every page of
    which holds data that formats, no number of rounds is enough for the
    scraper to return; it has asked for one more page after each round. *)
Theorem scraper_runs_on_while_pages_are_full :
  (forall w p, exists trs w' fragment,
      get_listing w p 100 = (Some trs, w')
      /\ (2 < List.length trs)%nat
      /\ _format_exchange_data (stripped trs) = inr fragment) ->
  forall (fuel : nat) (s : scraper_state World),
  exists s',
    scrape' fuel s = (OutOfFuel, s')
    /\ requested s' = requested s ++ pages_from 1 fuel.
Proof.
  intros Hsite fuel s.
  assert (Hloop : forall fuel p acc s,
             exists s', loop' fuel 100 p acc s = (OutOfFuel, s')
                        /\ requested s' = requested s ++ pages_from p fuel).
  { clear fuel s. induction fuel as [|fuel IH]; intros p acc s.
    - exists s. simpl. rewrite app_nil_r. auto.
    - rewrite scrape_loop_step.
      destruct (Hsite (listing_world s) p) as (trs & w' & fragment & -> & Hlen & ->).
      cbv beta iota zeta.
      destruct (Nat.leb_spec (List.length trs) 2); [lia|].
      destruct (IH (p + 1) (acc ++ [fragment])
                   (Build_scraper_state w' (requested s ++ [p]))) as (s' & -> & Hlog).
      exists s'. split; [reflexivity|].
      rewrite Hlog. cbn [requested]. rewrite <- app_assoc. reflexivity. }
  destruct (Hloop fuel 1 [] s) as (s' & Hrun & Hlog).
  exists s'. unfold scrape_exchanges, bind. rewrite Hrun. auto.
Qed.

(** X9. Size of the result: a returned table holds one record for every
    row but the first of every page fetched before the short one. *)
Theorem scraper_table_size
        (fuel : nat) (s s' : scraper_state World) (table : list exchange) :
  scrape' fuel s = (Returned table, s') ->
  exists pages last,
    served' (listing_world s) 1 (pages ++ [last]) (listing_world s')
    /\ (List.length last <= 2)%nat
    /\ List.length table
       = list_sum (map (fun trs => (List.length trs - 1)%nat) pages).
Proof.
  unfold scrape_exchanges, bind. intros Hrun.
  destruct (loop' fuel 100 1 [] s) as [o1 s1] eqn:E.
  apply scrape_loop_sound in E as (n & _ & _ & Hret).
  destruct o1 as [frs|e|]; try discriminate Hrun.
  destruct (Hret frs eq_refl) as (full & last & frags & _ & Hs & _ & Hlast & Hfr & Hfrs).
  simpl in Hfrs. subst frs.
  assert (Ht : table = List.concat frags /\ s' = s1).
  { unfold lift, pd_concat in Hrun. destruct frags; inversion Hrun; auto. }
  destruct Ht as [-> ->].
  exists full, last. split; [exact Hs|]. split; [exact Hlast|].
  clear -Hfr. induction Hfr as [|trs fragment full frags Hfmt _ IH]; [reflexivity|].
  assert (Hlen : List.length fragment = (List.length trs - 1)%nat).
  { apply format_exchange_data_spec in Hfmt. apply Forall2_length in Hfmt.
    rewrite <- Hfmt. unfold stripped. destruct trs as [|r trs]; [reflexivity|].
    change (List.length (map (map PyStr.strip_blank) trs) = (S (List.length trs) - 1)%nat).
    rewrite List.length_map, Nat.sub_succ, Nat.sub_0_r. reflexivity. }
  cbn [List.concat map list_sum]. rewrite List.length_app, IH, Hlen. reflexivity.
Qed.

End ScraperEdges.

Lemma scraper_aborts_on_bad_page_witness :
  scrape_exchanges unit broken_listing 5 (Build_scraper_state tt [])
  = (Raised MissingCell, Build_scraper_state tt [1; 2]).
Proof.
  apply (scraper_aborts_on_bad_page unit broken_listing
           [ [] :: repeat (stub_row 1) 2 ] [ repeat (stub_record 1) 2 ]
           (Some [[]; ["0x04"; "Exchange"; "1 Ether"]; stub_row 2]) MissingCell
           tt tt tt [] 3).
  - econstructor; [reflexivity | constructor].
  - constructor; [simpl; lia | constructor].
  - constructor; [vm_compute; reflexivity | constructor].
  - reflexivity.
  - split; [simpl; lia | vm_compute; reflexivity].
Defined.

Lemma scraper_runs_on_while_pages_are_full_witness :
  exists s',
    scrape_exchanges unit endless_listing 4 (Build_scraper_state tt []) = (OutOfFuel, s')
    /\ requested s' = [1; 2; 3; 4].
Proof.
  apply (scraper_runs_on_while_pages_are_full unit endless_listing).
  intros [] p. exists ([] :: repeat (stub_row p) 2), tt, (repeat (stub_record p) 2).
  split; [reflexivity|]. split; [simpl; lia|].
  unfold stub_row, stub_record.
  destruct (p =? 1); [vm_compute; reflexivity|].
  destruct (p =? 2); vm_compute; reflexivity.
Defined.

Lemma scraper_table_size_witness :
  exists pages last,
    serves unit stub_listing tt 1 (pages ++ [last])%list tt
    /\ (List.length last <= 2)%nat
    /\ 300%nat = list_sum (map (fun trs => (List.length trs - 1)%nat) pages).
Proof.
  assert (E : scrape_exchanges unit stub_listing 10 (Build_scraper_state tt [])
              = (Returned (repeat (stub_record 1) 100 ++ repeat (stub_record 2) 100
                           ++ repeat (stub_record 3) 100)%list,
                 Build_scraper_state tt [1; 2; 3; 4]))
    by (vm_compute; reflexivity).
  exact (scraper_table_size unit stub_listing _ _ _ _ E).
Defined.

(** ** More on the Exchange Filter *)

Lemma top_exchanges_app (df1 df2 : list exchange) (b c : PyFloat.float) :
  top_exchanges (df1 ++ df2) b c = (top_exchanges df1 b c ++ top_exchanges df2 b c)%list.
Proof. rewrite !top_exchanges_filter. apply List.filter_app. Qed.

(** X10. Filtering commutes with the concatenation of pages: the
    addresses selected from a concatenated table are those selected from
    each fragment, fragment after fragment. *)
Theorem filter_of_concatenated_pages
        (frags : list (list exchange)) (b c : PyFloat.float) :
  filter_top_exchange_addresses (List.concat frags) b c
  = List.concat (map (fun fragment => filter_top_exchange_addresses fragment b c) frags).
Proof.
  unfold filter_top_exchange_addresses.
  induction frags as [|fragment frags IH]; [reflexivity|].
  cbn [List.concat map]. rewrite top_exchanges_app, List.map_app, IH. reflexivity.
Qed.

Lemma gt_nan_l (y : PyFloat.float) : PyFloat.gt S754_nan y = false.
Proof. destruct y; reflexivity. Qed.

Lemma gt_nan_r (x : PyFloat.float) : PyFloat.gt x S754_nan = false.
Proof. destruct x; reflexivity. Qed.

(** X11. Not-a-number never passes: no selected record has a NaN balance
    or txn_count, whatever the thresholds, and a NaN threshold selects
    nothing. *)
Theorem filter_never_selects_nan (df : list exchange) (b c : PyFloat.float) :
  (forall r, In r (top_exchanges df b c) ->
             balance r <> S754_nan /\ txn_count r <> S754_nan)
  /\ (b = S754_nan \/ c = S754_nan -> filter_top_exchange_addresses df b c = []).
Proof.
  split.
  - intros r Hin. rewrite top_exchanges_filter in Hin.
    apply List.filter_In in Hin as [_ Hr]. unfold exceeds in Hr.
    apply andb_prop in Hr as [Hb Hc].
    split; intros E; rewrite E, gt_nan_l in *; discriminate.
  - intros Hnan. unfold filter_top_exchange_addresses.
    rewrite top_exchanges_filter.
    replace (List.filter (exceeds b c) df) with (@nil exchange); [reflexivity|].
    symmetry. induction df as [|r df IH]; [reflexivity|].
    simpl. rewrite IH.
    assert (E : exceeds b c r = false).
    { unfold exceeds. destruct Hnan as [->| ->]; rewrite gt_nan_r;
        [reflexivity | apply andb_false_r]. }
    rewrite E. reflexivity.
Qed.

Lemma filter_never_selects_nan_witness :
  balance_of_cell (Some "nan Ether") = inr S754_nan
  /\ filter_top_exchange_addresses
       [{| address := "N"; name := ""; balance := S754_nan;
           txn_count := PyFloat.of_Z 500000 |}]
       S754_nan default_min_txn_count = [].
Proof.
  split; [reflexivity|].
  apply (proj2 (filter_never_selects_nan _ S754_nan default_min_txn_count)).
  left. reflexivity.
Defined.

(** ** More on the Transaction History Fetcher *)

Section FetcherEdges.

Variable World : Type.
Variable Txn : Type.
Variable get_txlist : World -> txlist_request -> api_response Txn * World.
Variable getpass : World -> string -> string * World.

Local Open Scope list_scope.

Abbreviation paging' := (page_loop World Txn get_txlist).
Abbreviation each_address' := (for_each_address World Txn get_txlist).
Abbreviation history' := (get_txn_history World Txn get_txlist getpass).
Abbreviation answers' := (answers World Txn get_txlist).

Lemma pd_concat_nonempty {A} (frames : list (list A)) :
  frames <> [] -> pd_concat frames = inr (List.concat frames).
Proof. destruct frames; [congruence | reflexivity]. Qed.

(** The loop runs through the pages that are within the cap and
    answered with success. *)
Lemma page_loop_prefix (address api_key : string) (offset : Z) (frames : list (list Txn)) :
  forall (w w1 : World) (p : Z) (acc : list (list Txn))
         (log : list txlist_request) (fuel : nat),
    answers' address api_key offset w p frames w1 ->
    (forall q, In q (pages_from p (List.length frames)) -> q * offset <= 10000) ->
    paging' (List.length frames + fuel) address api_key offset p acc
            (Build_fetcher_state w log)
    = paging' fuel address api_key offset (p + Z.of_nat (List.length frames))
              (acc ++ frames)
              (Build_fetcher_state
                 w1 (log ++ map (txlist_query address api_key offset)
                                (pages_from p (List.length frames)))).
Proof.
  induction frames as [|records frames IH]; intros w w1 p acc log fuel Ha Hcap.
  - inversion Ha; subst. simpl. rewrite Z.add_0_r, !app_nil_r. reflexivity.
  - inversion Ha as [|? ? message ? w2 ? ? Hget Hrest]; subst.
    change (List.length (records :: frames) + fuel)%nat
      with (S (List.length frames + fuel)).
    rewrite page_loop_step. cbn [api_world issued].
    destruct (Z.leb_spec (p * offset) 10000) as [_|Hover].
    2:{ specialize (Hcap p (or_introl eq_refl)). lia. }
    rewrite Hget. cbn [status result negb String.eqb Ascii.eqb Bool.eqb frame_of_result].
    rewrite (IH w2 w1 (p + 1) (acc ++ [records]) _ fuel Hrest).
    + replace (p + 1 + Z.of_nat (List.length frames))
        with (p + Z.of_nat (List.length (records :: frames)))
        by (simpl List.length; lia).
      simpl pages_from. simpl map. rewrite <- !app_assoc. reflexivity.
    + intros q Hq. apply Hcap. right. exact Hq.
Qed.

(** X12. Soft stop after data: when the pages of an address are answered
    with success and the next request, still within the cap, comes back
    with another status, the pages fetched so far become the table of
    that address, end to end, and the fetcher goes on with the next
    address. *)
Theorem fetcher_soft_stop_keeps_fetched_pages
        (address api_key : string) (rest : list string) (offset : Z)
        (frames : list (list Txn)) (response : api_response Txn)
        (acc : gmap string (list Txn))
        (w w1 w2 : World) (log : list txlist_request) (fuel : nat) :
  answers' address api_key offset w 1 frames w1 ->
  frames <> [] ->
  (1 + Z.of_nat (List.length frames)) * offset <= 10000 ->
  0 <= offset ->
  get_txlist w1 (txlist_query address api_key offset (1 + Z.of_nat (List.length frames)))
  = (response, w2) ->
  status response <> "1" ->
  each_address' (List.length frames + S fuel) api_key offset (address :: rest) acc
                (Build_fetcher_state w log)
  = each_address' (List.length frames + S fuel) api_key offset rest
                  (<[address := List.concat frames]> acc)
                  (Build_fetcher_state
                     w2 (log ++ map (txlist_query address api_key offset)
                                    (pages_from 1 (S (List.length frames))))).
Proof.
  intros Ha Hne Hnext Hpos Hget Hstatus.
  cbn [for_each_address]. unfold bind at 1.
  rewrite (page_loop_prefix address api_key offset frames w w1 1 [] log (S fuel) Ha).
  2:{ intros q Hq. apply pages_from_In in Hq. nia. }
  rewrite page_loop_step. cbn [api_world issued].
  destruct (Z.leb_spec ((1 + Z.of_nat (List.length frames)) * offset) 10000); [|lia].
  rewrite Hget. apply String.eqb_neq in Hstatus. rewrite Hstatus. cbn [negb].
  rewrite pages_from_snoc, List.map_app, app_assoc.
  change ([] ++ frames) with frames.
  unfold bind at 1, lift. rewrite (pd_concat_nonempty frames Hne). reflexivity.
Qed.

(** X13. Hard stop with data: when the pages of an address within the
    cap are all answered with success and the next page would pass the
    cap, that page is not asked for; the pages fetched become the table of
    the address and the fetcher goes on with the next address. *)
Theorem fetcher_hard_stop_keeps_fetched_pages
        (address api_key : string) (rest : list string) (offset : Z)
        (frames : list (list Txn)) (acc : gmap string (list Txn))
        (w w1 : World) (log : list txlist_request) (fuel : nat) :
  answers' address api_key offset w 1 frames w1 ->
  frames <> [] ->
  Z.of_nat (List.length frames) * offset <= 10000 ->
  10000 < (1 + Z.of_nat (List.length frames)) * offset ->
  each_address' (List.length frames + fuel) api_key offset (address :: rest) acc
                (Build_fetcher_state w log)
  = each_address' (List.length frames + fuel) api_key offset rest
                  (<[address := List.concat frames]> acc)
                  (Build_fetcher_state
                     w1 (log ++ map (txlist_query address api_key offset)
                                    (pages_from 1 (List.length frames)))).
Proof.
  intros Ha Hne Hlast Hover.
  cbn [for_each_address]. unfold bind at 1.
  rewrite (page_loop_prefix address api_key offset frames w w1 1 [] log fuel Ha).
  2:{ intros q Hq. apply pages_from_In in Hq. nia. }
  assert (Hstop : forall s, paging' fuel address api_key offset
                                    (1 + Z.of_nat (List.length frames)) ([] ++ frames) s
                            = (Returned frames, s)).
  { intros s. destruct fuel; simpl;
      destruct (Z.leb_spec ((1 + Z.of_nat (List.length frames)) * offset) 10000);
      try lia; reflexivity. }
  rewrite Hstop. unfold bind at 1, lift.
  rewrite (pd_concat_nonempty frames Hne). reflexivity.
Qed.

(** X14. A page size above the cap: with an offset greater than 10000 not
    even the first page is asked for, and the empty list of pages makes
    the fetcher raise at the first address. *)
Theorem fetcher_raises_when_offset_exceeds_cap
        (fuel : nat) (address api_key : string) (rest : list string) (offset : Z)
        (acc : gmap string (list Txn)) (s : fetcher_state World) :
  10000 < offset ->
  each_address' fuel api_key offset (address :: rest) acc s
  = (Raised NoObjectsToConcatenate, s).
Proof.
  intros Hbig. cbn [for_each_address]. unfold bind at 1.
  assert (Hstop : paging' fuel address api_key offset 1 [] s = (Returned [], s)).
  { destruct fuel; simpl; destruct (Z.leb_spec (1 * offset) 10000); try lia; reflexivity. }
  rewrite Hstop. reflexivity.
Qed.

Lemma for_each_address_keys
        (fuel : nat) (api_key : string) (offset : Z) (addresses : list string) :
  forall (acc m : gmap string (list Txn)) (s s' : fetcher_state World),
    each_address' fuel api_key offset addresses acc s = (Returned m, s') ->
    dom m = list_to_set addresses ∪ dom acc.
Proof.
  induction addresses as [|address rest IH]; intros acc m s s' Hrun.
  - inversion Hrun; subst. set_solver.
  - cbn [for_each_address] in Hrun. unfold bind at 1 in Hrun.
    destruct (paging' fuel address api_key offset 1 [] s) as [[txns|e|] s1];
      try discriminate Hrun.
    unfold bind at 1, lift in Hrun.
    destruct (pd_concat txns) as [e|table]; [discriminate Hrun|].
    apply IH in Hrun. rewrite Hrun, dom_insert_L. set_solver.
Qed.

(** X15. Keys of the result: when the fetcher returns, the keys of the
    dictionary are exactly the addresses it was given, a repeated address
    counting once. *)
Theorem fetcher_result_keys
        (fuel : nat) (addresses : list string) (api_key : option string) (offset : Z)
        (s s' : fetcher_state World) (m : gmap string (list Txn)) :
  history' fuel addresses api_key offset s = (Returned m, s') ->
  dom m = list_to_set addresses.
Proof.
  unfold get_txn_history. intros Hrun.
  assert (Hkeys : exists key s1,
             each_address' fuel key offset addresses ∅ s1 = (Returned m, s')).
  { destruct api_key as [k|].
    - exists k, s. exact Hrun.
    - unfold bind at 1, prompt in Hrun.
      destruct (getpass (api_world s) "Enter EtherScan.io API Key: ") as [typed w1].
      eauto. }
  destruct Hkeys as (key & s1 & Hkeys).
  apply for_each_address_keys in Hkeys. rewrite Hkeys. set_solver.
Qed.

(** The requests of a run, address after address: for each address
    reached, pages 1, 2, ... with the same key and page size. *)
Lemma for_each_address_queries (fuel : nat) (api_key : string) (offset : Z)
      (addresses : list string) :
  forall (acc : gmap string (list Txn)) (s s' : fetcher_state World)
         (out : outcome (gmap string (list Txn))),
    each_address' fuel api_key offset addresses acc s = (out, s') ->
    exists counts : list nat,
      (List.length counts <= List.length addresses)%nat
      /\ issued s'
         = issued s
           ++ List.concat
                (map (fun an => map (txlist_query (fst an) api_key offset)
                                    (pages_from 1 (snd an)))
                     (combine addresses counts))
      /\ Forall (fun n => (Z.of_nat n * offset <= 10000 \/ n = O)
                          /\ (offset = 5000 -> (n <= 2)%nat)) counts.
Proof.
  induction addresses as [|address rest IH]; intros acc s s' out Hrun.
  - inversion Hrun; subst. exists []. simpl. rewrite app_nil_r.
    split; [lia|]. split; [reflexivity | constructor].
  - cbn [for_each_address] in Hrun. unfold bind at 1 in Hrun.
    destruct (paging' fuel address api_key offset 1 [] s) as [o1 s1] eqn:E1.
    apply page_loop_requests in E1 as (n & Hlog & Hcap).
    assert (Hn : (Z.of_nat n * offset <= 10000 \/ n = O)
                 /\ (offset = 5000 -> (n <= 2)%nat)).
    { destruct n as [|n]; [split; [auto | lia]|].
      specialize (Hcap (1 + Z.of_nat n)). rewrite pages_from_In in Hcap.
      split; [left | intros ->]; lia. }
    assert (Hstop : exists counts : list nat,
               (List.length counts <= List.length (address :: rest))%nat
               /\ issued s1
                  = issued s
                    ++ List.concat
                         (map (fun an => map (txlist_query (fst an) api_key offset)
                                             (pages_from 1 (snd an)))
                              (combine (address :: rest) counts))
               /\ Forall (fun n => (Z.of_nat n * offset <= 10000 \/ n = O)
                                   /\ (offset = 5000 -> (n <= 2)%nat)) counts).
    { exists [n]. cbn [combine map List.concat fst snd List.length].
      rewrite List.combine_nil. cbn [map List.concat]. rewrite app_nil_r.
      split; [lia|]. split; [exact Hlog | constructor; [exact Hn | constructor]]. }
    destruct o1 as [txns|e|]; try (inversion Hrun; subst; exact Hstop).
    unfold bind, lift in Hrun. destruct (pd_concat txns) as [e|table].
    + inversion Hrun; subst. exact Hstop.
    + apply IH in Hrun as (counts & Hlen & Hlog' & Hall).
      exists (n :: counts). simpl. split; [lia|]. split.
      * rewrite Hlog', Hlog, <- app_assoc. reflexivity.
      * constructor; assumption.
Qed.

(** X16. Requests of a run, whatever its outcome: the fetcher reads the
    key from the terminal only when none is given, and then asks address
    by address in the order given, for each address reached pages 1, 2,
    ... in turn, every request with that one key and the one page size;
    no request for an address comes after a request for a later one. *)
Theorem fetcher_requests_in_address_order
        (fuel : nat) (addresses : list string) (api_key : option string) (offset : Z)
        (s s' : fetcher_state World) (out : outcome (gmap string (list Txn))) :
  history' fuel addresses api_key offset s = (out, s') ->
  let key := match api_key with
             | Some k => k
             | None => fst (getpass (api_world s) "Enter EtherScan.io API Key: ")
             end in
  exists counts : list nat,
    (List.length counts <= List.length addresses)%nat
    /\ issued s'
       = issued s
         ++ List.concat
              (map (fun an => map (txlist_query (fst an) key offset)
                                  (pages_from 1 (snd an)))
                   (combine addresses counts))
    /\ Forall (fun n => (Z.of_nat n * offset <= 10000 \/ n = O)
                        /\ (offset = 5000 -> (n <= 2)%nat)) counts.
Proof.
  intros Hrun key. unfold get_txn_history in Hrun.
  destruct api_key as [k|].
  - unfold bind at 1, ret in Hrun.
    exact (for_each_address_queries _ _ _ _ _ _ _ _ Hrun).
  - unfold bind at 1, prompt in Hrun. subst key.
    destruct (getpass (api_world s) "Enter EtherScan.io API Key: ") as [typed w1].
    apply for_each_address_queries in Hrun. exact Hrun.
Qed.

End FetcherEdges.

Lemma fetcher_soft_stop_keeps_fetched_pages_witness :
  get_txn_history nat string drying_api (fun w _ => ("", w)) 3
                  ["0xA"] (Some "key") 5000 (Build_fetcher_state 0%nat [])
  = (Returned (<["0xA" := ["0xfeed"]]> ∅),
     Build_fetcher_state 2%nat
       [txlist_query "0xA" "key" 5000 1; txlist_query "0xA" "key" 5000 2]).
Proof.
  unfold get_txn_history, bind at 1, ret.
  change 3%nat with (List.length [["0xfeed"]] + S 1)%nat.
  rewrite (fetcher_soft_stop_keeps_fetched_pages nat string drying_api
             "0xA" "key" [] 5000 [["0xfeed"]]
             (Build_api_response "0" "No transactions found" (inr ""))
             ∅ 0%nat 1%nat 2%nat [] 1).
  - reflexivity.
  - econstructor; [reflexivity | constructor].
  - discriminate.
  - simpl. lia.
  - lia.
  - reflexivity.
  - discriminate.
Defined.

Lemma fetcher_hard_stop_keeps_fetched_pages_witness :
  get_txn_history unit string working_api silent_terminal 2
                  ["0xA"] (Some "key") 5000 (Build_fetcher_state tt [])
  = (Returned (<["0xA" := ["0xfeed"; "0xfeed"]]> ∅),
     Build_fetcher_state tt
       [txlist_query "0xA" "key" 5000 1; txlist_query "0xA" "key" 5000 2]).
Proof.
  unfold get_txn_history, bind at 1, ret.
  change 2%nat with (List.length [["0xfeed"]; ["0xfeed"]] + 0)%nat.
  rewrite (fetcher_hard_stop_keeps_fetched_pages unit string working_api
             "0xA" "key" [] 5000 [["0xfeed"]; ["0xfeed"]] ∅ tt tt [] 0).
  - reflexivity.
  - repeat (econstructor; [reflexivity|]). constructor.
  - discriminate.
  - simpl. lia.
  - simpl. lia.
Defined.

Lemma fetcher_raises_when_offset_exceeds_cap_witness :
  get_txn_history unit string working_api silent_terminal 5
                  ["0xA"; "0xB"] (Some "key") 20000 (Build_fetcher_state tt [])
  = (Raised NoObjectsToConcatenate, Build_fetcher_state tt []).
Proof.
  apply (fetcher_raises_when_offset_exceeds_cap unit string working_api
           5 "0xA" "key" ["0xB"] 20000 ∅ (Build_fetcher_state tt [])).
  lia.
Defined.

Lemma fetcher_result_keys_witness :
  dom (<["0xB" := ["0xfeed"; "0xfeed"]]> (<["0xA" := ["0xfeed"; "0xfeed"]]> ∅)
       : gmap string (list string))
  = list_to_set ["0xA"; "0xB"; "0xA"].
Proof.
  assert (E : get_txn_history unit string working_api silent_terminal 2
                ["0xA"; "0xB"; "0xA"] None 5000 (Build_fetcher_state tt [])
              = (Returned (<["0xB" := ["0xfeed"; "0xfeed"]]>
                             (<["0xA" := ["0xfeed"; "0xfeed"]]> ∅)),
                 Build_fetcher_state tt
                   [txlist_query "0xA" "" 5000 1; txlist_query "0xA" "" 5000 2;
                    txlist_query "0xB" "" 5000 1; txlist_query "0xB" "" 5000 2;
                    txlist_query "0xA" "" 5000 1; txlist_query "0xA" "" 5000 2]))
    by (vm_compute; reflexivity).
  exact (fetcher_result_keys unit string working_api silent_terminal _ _ _ _ _ _ _ E).
Defined.

Lemma fetcher_requests_in_address_order_witness :
  exists counts : list nat,
    (List.length counts <= 2)%nat
    /\ [txlist_query "0xA" "" 5000 1]
       = ([] ++ List.concat
                  (map (fun an => map (txlist_query (fst an) "" 5000)
                                      (pages_from 1 (snd an)))
                       (combine ["0xA"; "0xB"] counts)))%list
    /\ Forall (fun n => (Z.of_nat n * 5000 <= 10000 \/ n = O)
                        /\ (5000 = 5000 -> (n <= 2)%nat)) counts.
Proof.
  assert (E : get_txn_history unit string failing_api silent_terminal 3
                ["0xA"; "0xB"] None 5000 (Build_fetcher_state tt [])
              = (Raised NoObjectsToConcatenate,
                 Build_fetcher_state tt [txlist_query "0xA" "" 5000 1]))
    by (vm_compute; reflexivity).
  exact (fetcher_requests_in_address_order unit string failing_api silent_terminal
           _ _ _ _ _ _ _ E).
Defined.
